(** * Tide table generator: [convert_tide_data.py] and [generate_tide_pdf.py]

    A shallow embedding of the four functions of [convert_tide_data.py]
    ([parse_csv_to_extrema], [tide_height_between], [generate_hourly_tides],
    [validate_output]) and of the pipeline of its [main], and of the
    functions of [generate_tide_pdf.py] that prepare the document
    ([group_by_month], [create_month_table], the flowables of
    [generate_pdf] and the page count of its [main]), followed by the
    properties the specification states about the converter and by further
    properties of both programs.

    Modelling conventions.
    - A Python exception is a value of [exn]; a function that can raise
      returns a [result].
    - A [datetime] whose seconds and microseconds are zero (the only ones the
      program builds: [strptime('%Y-%m-%d')] followed by
      [replace(hour=, minute=)], [replace(hour=0, minute=0, second=0,
      microsecond=0)] and [+ timedelta(hours=1)]) is the number of minutes
      from midnight of proleptic Gregorian ordinal 0, so that the ordinal of
      its date is [t / 1440]; the datetimes of Python are those from
      0001-01-01 00:00 to 9999-12-31 23:59 ([valid_datetime]).  Comparison
      of datetimes is comparison of these numbers.  Dates, ordinals and
      their strings follow the [datetime] module: [_ymd2ord], [_ord2ymd],
      and [%Y], [%m], [%d], [%H] as zero-padded decimals of 4, 2, 2 and 2
      digits.  The [OverflowError] of an addition that leaves the range of
      [datetime] is not modelled.
    - Strings are strings of ASCII characters; [sorted] on strings is the
      lexicographic order of the character codes.
    - A Python [float] is a real number: the rounding of binary64 arithmetic
      and the non-finite floats are not modelled.
    - The renderer reads the list [json.load] returns.  A day of it is
      typed: the entry under ["Date"], when there is one, is a string, and
      the entries under the other keys are numbers or strings.  The text
      [f'{x:.1f}'] of a float is a parameter [format_1f] of the functions
      that build cells, and nothing is assumed of it.  The document is the
      list of flowables [doc.build] is passed, each by what it shows; the
      page geometry, fonts, colours and column widths are left out. *)

From Stdlib Require Import ZArith Reals Lra Lia Ascii String.
From stdpp Require Import gmap strings list fin_maps sorting pretty.
From Equations Require Import Equations.

Open Scope Z_scope.

(** * Part I: the embedding *)

(** ** Exceptions *)

Inductive exn : Type :=
  | IndexError
  | KeyError
  | ValueError
  | ZeroDivisionError.

Inductive result (A : Type) : Type :=
  | Ok (a : A)
  | Raise (e : exn).
Arguments Ok {A} a.
Arguments Raise {A} e.

#[global] Instance result_ret : MRet result := fun A a => Ok a.
#[global] Instance result_bind : MBind result := fun A B f m =>
  match m with
  | Ok a => f a
  | Raise e => Raise e
  end.

(** A [for] loop whose body threads a state and may raise. *)
Fixpoint for_each {A S : Type} (body : S → A → result S) (l : list A) (s : S)
    : result S :=
  match l with
  | [] => Ok s
  | a :: l' => s' ← body s a; for_each body l' s'
  end.

(** A list comprehension whose element expression may raise. *)
Fixpoint comprehension {A B : Type} (f : A → result B) (l : list A)
    : result (list B) :=
  match l with
  | [] => Ok []
  | a :: l' => b ← f a; bs ← comprehension f l'; Ok (b :: bs)
  end.

(** [d[k]] on a dictionary. *)
Definition getitem `{Countable K} {V : Type} (d : gmap K V) (k : K) : result V :=
  match d !! k with
  | Some v => Ok v
  | None => Raise KeyError
  end.

(** ** Python strings and numeric literals (ASCII) *)

Module Py.

(** [str.isspace] on ASCII: tab to carriage return, the four separators
    and the space. *)
Definition is_space (c : ascii) : bool :=
  let n := Z.of_N (N_of_ascii c) in
  ((9 <=? n) && (n <=? 13)) || ((28 <=? n) && (n <=? 32)).

Fixpoint drop_while {A : Type} (p : A → bool) (l : list A) : list A :=
  match l with
  | [] => []
  | a :: l' => if p a then drop_while p l' else l
  end.

Definition strip_chars (l : list ascii) : list ascii :=
  rev (drop_while is_space (rev (drop_while is_space l))).

(** [s.strip()] *)
Definition strip (s : string) : string :=
  string_of_list_ascii (strip_chars (list_ascii_of_string s)).

(** [s[:n]] and [s[n:]] *)
Definition slice_to (n : nat) (s : string) : string :=
  string_of_list_ascii (take n (list_ascii_of_string s)).
Definition slice_from (n : nat) (s : string) : string :=
  string_of_list_ascii (drop n (list_ascii_of_string s)).

(** Truth value of a string: non-empty. *)
Definition truthy (s : string) : bool :=
  match s with
  | EmptyString => false
  | String _ _ => true
  end.

Definition digit_of (c : ascii) : option Z :=
  let n := Z.of_N (N_of_ascii c) in
  if (48 <=? n) && (n <=? 57) then Some (n - 48) else None.

(** The rest of a [digitpart ::= digit (["_"] digit)*] after its first
    digit: the digits read and the unread input. *)
Fixpoint digits_tail (l : list ascii) : list Z * list ascii :=
  match l with
  | [] => ([], [])
  | c :: l' =>
      match digit_of c with
      | Some v => let '(ds, r) := digits_tail l' in (v :: ds, r)
      | None =>
          match l' with
          | d :: l'' =>
              match Ascii.eqb c "_", digit_of d with
              | true, Some v =>
                  let '(ds, r) := digits_tail l'' in (v :: ds, r)
              | _, _ => ([], l)
              end
          | [] => ([], l)
          end
      end
  end.

Definition digitpart (l : list ascii) : option (list Z * list ascii) :=
  match l with
  | [] => None
  | c :: l' =>
      match digit_of c with
      | Some v => let '(ds, r) := digits_tail l' in Some (v :: ds, r)
      | None => None
      end
  end.

Definition of_digits (ds : list Z) : Z :=
  foldl (fun acc d => acc * 10 + d) 0 ds.

Definition split_sign (l : list ascii) : Z * list ascii :=
  match l with
  | c :: r =>
      if Ascii.eqb c "+" then (1, r)
      else if Ascii.eqb c "-" then (-1, r)
      else (1, l)
  | [] => (1, l)
  end.

(** [int(s)]: surrounding whitespace, an optional sign, decimal digits
    with single underscores between them. *)
Definition int (s : string) : result Z :=
  let '(sg, l) := split_sign (strip_chars (list_ascii_of_string s)) in
  match digitpart l with
  | Some (ds, []) => Ok (sg * of_digits ds)
  | _ => Raise ValueError
  end.

(** The decimal literals [float] accepts, as mantissa and power of ten:
    [[sign] ([digitpart] "." digitpart | digitpart ["."]) [exponent]].
    The spellings of infinity and NaN, which [float] also accepts, have
    no real value and are not literals here. *)
Definition float_literal (l : list ascii) : option (Z * Z) :=
  let '(sg, l1) := split_sign l in
  let '(ip, r1) :=
    match digitpart l1 with
    | Some p => p
    | None => ([], l1)
    end in
  let number :=
    match r1 with
    | c :: r2 =>
        if Ascii.eqb c "." then
          match digitpart r2, ip with
          | Some (fp, r3), _ => Some (fp, r3)
          | None, _ :: _ => Some ([], r2)
          | None, [] => None
          end
        else match ip with [] => None | _ :: _ => Some ([], r1) end
    | [] => match ip with [] => None | _ :: _ => Some ([], r1) end
    end in
  match number with
  | None => None
  | Some (fp, r3) =>
      let mant := sg * of_digits (ip ++ fp) in
      let k := Z.of_nat (length fp) in
      match r3 with
      | [] => Some (mant, - k)
      | c :: r4 =>
          if Ascii.eqb c "e" || Ascii.eqb c "E" then
            let '(esg, r5) := split_sign r4 in
            match digitpart r5 with
            | Some (es, []) => Some (mant, esg * of_digits es - k)
            | _ => None
            end
          else None
      end
  end.

Definition float_value (lit : Z * Z) : R :=
  let '(m, e) := lit in
  if 0 <=? e then IZR (m * 10 ^ e) else (IZR m / IZR (10 ^ (- e)))%R.

(** [float(s)] *)
Definition float (s : string) : result R :=
  match float_literal (strip_chars (list_ascii_of_string s)) with
  | Some lit => Ok (float_value lit)
  | None => Raise ValueError
  end.

(** Nearest integer, ties to the even one. *)
Definition round_half_even (r : R) : Z :=
  let f := up r - 1 in
  let d := (r - IZR f)%R in
  if Rlt_dec d (1 / 2) then f
  else if Rlt_dec (1 / 2) d then f + 1
  else if Z.even f then f else f + 1.

(** [round(x, 1)] *)
Definition round1 (x : R) : R := (IZR (round_half_even (x * 10)) / 10)%R.

(** [a / b] on floats: division by zero raises. *)
Definition float_div (a b : R) : result R :=
  if Req_dec_T b 0 then Raise ZeroDivisionError else Ok (a / b)%R.

End Py.

(** ** Datetimes *)

Abbreviation datetime := Z (only parsing).

Module Datetime.

(** The calendar arithmetic of the [datetime] module. *)
Definition is_leap (year : Z) : bool :=
  (year mod 4 =? 0) && (negb (year mod 100 =? 0) || (year mod 400 =? 0)).

Definition days_before_year (year : Z) : Z :=
  let y := year - 1 in y * 365 + y / 4 - y / 100 + y / 400.

(** [_DAYS_IN_MONTH[month]] and [_DAYS_BEFORE_MONTH[month]] *)
Definition days_in_month_table (month : Z) : Z :=
  nth (Z.to_nat month) [-1; 31; 28; 31; 30; 31; 30; 31; 31; 30; 31; 30; 31] 0.

Definition days_before_month_table (month : Z) : Z :=
  nth (Z.to_nat month) [-1; 0; 31; 59; 90; 120; 151; 181; 212; 243; 273; 304; 334] 0.

Definition days_in_month (year month : Z) : Z :=
  if (month =? 2) && is_leap year then 29 else days_in_month_table month.

Definition days_before_month (year month : Z) : Z :=
  days_before_month_table month
  + (if (2 <? month) && is_leap year then 1 else 0).

Definition ymd2ord (year month day : Z) : Z :=
  days_before_year year + days_before_month year month + day.

(** [_ord2ymd] after its first division: the year, month and day of an
    ordinal, given the number [n400] of complete 400-year cycles before it
    and its place [n] in the cycle. *)
Definition ord2ymd_in_cycle (n400 n : Z) : Z * Z * Z :=
  let year := n400 * 400 + 1 in
  let n100 := n / 36524 in
  let n := n mod 36524 in
  let n4 := n / 1461 in
  let n := n mod 1461 in
  let n1 := n / 365 in
  let n := n mod 365 in
  let year := year + n100 * 100 + n4 * 4 + n1 in
  if (n1 =? 4) || (n100 =? 4) then (year - 1, 12, 31)
  else
    let leapyear := (n1 =? 3) && (negb (n4 =? 24) || (n100 =? 3)) in
    let month := Z.shiftr (n + 50) 5 in
    let preceding :=
      days_before_month_table month
      + (if (2 <? month) && leapyear then 1 else 0) in
    if n <? preceding then
      let month := month - 1 in
      let preceding :=
        preceding - (days_in_month_table month
                     + (if (month =? 2) && leapyear then 1 else 0)) in
      (year, month, n - preceding + 1)
    else (year, month, n - preceding + 1).

Definition ord2ymd (n : Z) : Z * Z * Z :=
  let n := n - 1 in
  ord2ymd_in_cycle (n / 146097) (n mod 146097).

Definition digit_char (d : Z) : ascii := ascii_of_N (Z.to_N (48 + d)).

(** The last [width] decimal digits of [n]: [n] padded with zeros to
    [width] digits when it has no more than that. *)
Fixpoint zero_pad (width : nat) (n : Z) : string :=
  match width with
  | O => ""
  | S w => String (digit_char (n / 10 ^ Z.of_nat w mod 10)) (zero_pad w n)
  end.

(** ["%Y-%m-%d"] of the date of an ordinal, and ["%H:00"] of an hour. *)
Definition date_string (ordinal : Z) : string :=
  let '(year, month, day) := ord2ymd ordinal in
  zero_pad 4 year +:+ "-" +:+ zero_pad 2 month +:+ "-" +:+ zero_pad 2 day.

Definition hour_string (hour : Z) : string := zero_pad 2 hour +:+ ":00".

(** Midnight of a calendar date. *)
Definition of_date (year month day : Z) : result datetime :=
  if (1 <=? year) && (year <=? 9999) && (1 <=? month) && (month <=? 12)
     && (1 <=? day) && (day <=? days_in_month year month)
  then Ok (ymd2ord year month day * 1440)
  else Raise ValueError.

(** The month field of ['%Y-%m-%d']: [1[0-2]|0[1-9]|[1-9]].  The field
    is followed by a dash, so a two-character alternative that matches
    is never abandoned for the one-character one. *)
Definition match_month (l : list ascii) : option (Z * list ascii) :=
  let two :=
    match l with
    | c1 :: c2 :: r =>
        match Py.digit_of c1, Py.digit_of c2 with
        | Some 1, Some d => if d <=? 2 then Some (10 + d, r) else None
        | Some 0, Some d => if 1 <=? d then Some (d, r) else None
        | _, _ => None
        end
    | _ => None
    end in
  match two, l with
  | Some x, _ => Some x
  | None, c1 :: r =>
      match Py.digit_of c1 with
      | Some d => if 1 <=? d then Some (d, r) else None
      | None => None
      end
  | None, [] => None
  end.

(** The day field: [3[0-1]|[1-2]\d|0[1-9]|[1-9]| [1-9]]. *)
Definition match_day (l : list ascii) : option (Z * list ascii) :=
  let two :=
    match l with
    | c1 :: c2 :: r =>
        match Py.digit_of c1, Py.digit_of c2 with
        | Some 3, Some d => if d <=? 1 then Some (30 + d, r) else None
        | Some 1, Some d => Some (10 + d, r)
        | Some 2, Some d => Some (20 + d, r)
        | Some 0, Some d => if 1 <=? d then Some (d, r) else None
        | _, _ => None
        end
    | _ => None
    end in
  match two, l with
  | Some x, _ => Some x
  | None, c1 :: r =>
      match Py.digit_of c1 with
      | Some d => if 1 <=? d then Some (d, r) else None
      | None =>
          match r with
          | c2 :: r' =>
              match Ascii.eqb c1 " ", Py.digit_of c2 with
              | true, Some d => if 1 <=? d then Some (d, r') else None
              | _, _ => None
              end
          | [] => None
          end
      end
  | None, [] => None
  end.

(** The fields of a string that matches ['%Y-%m-%d'] entirely. *)
Definition match_ymd (l : list ascii) : option (Z * Z * Z) :=
  match l with
  | y1 :: y2 :: y3 :: y4 :: dash1 :: l1 =>
      match Py.digit_of y1, Py.digit_of y2, Py.digit_of y3, Py.digit_of y4 with
      | Some a, Some b, Some c, Some d =>
          if Ascii.eqb dash1 "-" then
            match match_month l1 with
            | Some (month, dash2 :: l2) =>
                if Ascii.eqb dash2 "-" then
                  match match_day l2 with
                  | Some (day, []) => Some (Py.of_digits [a; b; c; d], month, day)
                  | _ => None
                  end
                else None
            | _ => None
            end
          else None
      | _, _, _, _ => None
      end
  | _ => None
  end.

(** [datetime.strptime(s, '%Y-%m-%d')] *)
Definition strptime (s : string) : result datetime :=
  match match_ymd (list_ascii_of_string s) with
  | Some (year, month, day) => of_date year month day
  | None => Raise ValueError
  end.

(** [dt.replace(hour=hour, minute=minute)], also when the seconds and
    microseconds are reset to zero with it. *)
Definition replace (dt : datetime) (hour minute : Z) : result datetime :=
  if (0 <=? hour) && (hour <=? 23) && (0 <=? minute) && (minute <=? 59)
  then Ok (dt / 1440 * 1440 + hour * 60 + minute)
  else Raise ValueError.

(** [dt.strftime("%Y-%m-%d")] and [dt.strftime("%H:00")] *)
Definition strftime_date (dt : datetime) : string := date_string (dt / 1440).

Definition strftime_hour (dt : datetime) : string :=
  hour_string (dt mod 1440 / 60).

(** [dt + timedelta(hours=1)] *)
Definition add_hour (dt : datetime) : datetime := dt + 60.

(** [(dt - dt').total_seconds()] for a difference of [d] minutes. *)
Definition total_seconds (d : Z) : R := IZR (d * 60).

End Datetime.

Import Datetime.

(** ** The data of the pipeline *)

(** A row of [csv.DictReader]: column name to field. *)
Abbreviation row := (gmap string string).

(** [{'time': dt, 'height': height}] *)
Record extremum : Type := Extremum { time : datetime; height : R }.

(** One day of the output: [{"Date": date_str, "00:00": ..., ...}], the
    entry under ["Date"] and the entries under the hour keys. *)
Record DailyRecord : Type := Daily { Date : string; hours : gmap string R }.

(** ** [parse_csv_to_extrema] *)

(** [row.get(key, '')] *)
Definition row_get (r : row) (key : string) : string := default "" (r !! key).

(** The body of [if time_val and height_val:]. *)
Definition parse_slot (date_str time_val height_val : string) : result extremum :=
  hour ← Py.int (Py.slice_to 2 time_val);
  minute ← Py.int (Py.slice_from 2 time_val);
  dt ← strptime date_str;
  dt ← replace dt hour minute;
  height ← Py.float height_val;
  Ok {| time := dt; height := height |}.

(** The body of [for i in range(1, 5):]. *)
Definition parse_slots (r : row) (date_str : string)
    (extrema : list extremum) (i : Z) : result (list extremum) :=
  let time_key := "Time" +:+ pretty i in
  let height_key := "Height" +:+ pretty i in
  let time_val := Py.strip (row_get r time_key) in
  let height_val := Py.strip (row_get r height_key) in
  if Py.truthy time_val && Py.truthy height_val then
    e ← parse_slot date_str time_val height_val;
    Ok (extrema ++ [e])
  else Ok extrema.

(** The body of [for row in reader:]. *)
Definition parse_row (extrema : list extremum) (r : row) : result (list extremum) :=
  date_str ← getitem r "Date";
  if String.prefix "EXAMPLE" date_str then Ok extrema
  else for_each (parse_slots r date_str) [1; 2; 3; 4] extrema.

(** [extrema.sort(key=lambda x: x['time'])]: a stable sort. *)
Fixpoint insert_by_time (e : extremum) (l : list extremum) : list extremum :=
  match l with
  | [] => [e]
  | x :: l' => if time e <=? time x then e :: l else x :: insert_by_time e l'
  end.

Definition sort_by_time (l : list extremum) : list extremum :=
  foldr insert_by_time [] l.

Definition parse_csv_to_extrema (rows : list row) : result (list extremum) :=
  extrema ← for_each parse_row rows [];
  Ok (sort_by_time extrema).

(** ** [tide_height_between] *)

Definition tide_height_between
    (t t0 : datetime) (h0 : R) (t1 : datetime) (h1 : R) : result R :=
  if t <=? t0 then Ok h0
  else if t >=? t1 then Ok h1
  else
    x ← Py.float_div (total_seconds (t - t0)) (total_seconds (t1 - t0));
    let s := (0.5 * (1 + sin (PI * x - PI / 2)))%R in
    Ok (h0 + (h1 - h0) * s)%R.

(** ** [generate_hourly_tides] *)

(** [extrema[0]] and [extrema[-1]] *)
Definition first_item {A : Type} (l : list A) : result A :=
  match l with
  | a :: _ => Ok a
  | [] => Raise IndexError
  end.

Definition last_item {A : Type} (l : list A) : result A :=
  match last l with
  | Some a => Ok a
  | None => Raise IndexError
  end.

(** [if date_str not in daily_data: daily_data[date_str] = {"Date": date_str}] *)
Definition init_day (date_str : string) (daily_data : gmap string DailyRecord)
    : gmap string DailyRecord :=
  match daily_data !! date_str with
  | Some _ => daily_data
  | None => <[date_str := {| Date := date_str; hours := ∅ |}]> daily_data
  end.

(** [daily_data[date_str][hour_str] = v] *)
Definition set_hour (date_str hour_str : string) (v : R)
    (daily_data : gmap string DailyRecord) : result (gmap string DailyRecord) :=
  day ← getitem daily_data date_str;
  Ok (<[date_str := {| Date := Date day; hours := <[hour_str := v]> (hours day) |}]>
        daily_data).

(** [for i in range(len(extrema) - 1):] over the pairs [extrema[i]],
    [extrema[i + 1]], up to the [break]. *)
Fixpoint scan_pairs (extrema : list extremum) (t : datetime)
    (daily_data : gmap string DailyRecord) : result (gmap string DailyRecord) :=
  match extrema with
  | e0 :: (e1 :: _) as rest =>
      let '(t0, h0) := (time e0, height e0) in
      let '(t1, h1) := (time e1, height e1) in
      if (t0 <=? t) && (t <=? t1) then
        ht ← tide_height_between t t0 h0 t1 h1;
        let date_str := strftime_date t in
        let hour_str := strftime_hour t in
        set_hour date_str hour_str (Py.round1 ht) (init_day date_str daily_data)
      else scan_pairs rest t daily_data
  | _ => Ok daily_data
  end.

(** [while t <= end:] *)
Equations? hourly_loop (extrema : list extremum) (end_ t : datetime)
    (daily_data : gmap string DailyRecord) : result (gmap string DailyRecord)
    by wf (Z.to_nat (end_ - t + 1)) lt :=
  hourly_loop extrema end_ t daily_data with Z_le_gt_dec t end_ := {
    | left _ with scan_pairs extrema t daily_data := {
        | Ok daily_data' => hourly_loop extrema end_ (add_hour t) daily_data'
        | Raise e => Raise e };
    | right _ => Ok daily_data }.
Proof. unfold add_hour. lia. Qed.

(** [sorted(daily_data.keys())] *)
Definition sorted_keys (daily_data : gmap string DailyRecord) : list string :=
  merge_sort String.le (map_to_list daily_data).*1.

Definition generate_hourly_tides (extrema : list extremum)
    : result (list DailyRecord) :=
  e_first ← first_item extrema;
  start ← replace (time e_first) 0 0;
  e_last ← last_item extrema;
  end_ ← replace (time e_last) 23 0;
  daily_data ← hourly_loop extrema end_ start ∅;
  comprehension (getitem daily_data) (sorted_keys daily_data).

(** ** [validate_output] *)

(** The two messages [validate_output] appends, by their fields:
    ["{date}: Only {hours_present}/24 hours present"] and
    ["{date} {hour_str}: Unusual tide level {level}m"]. *)
Inductive finding : Type :=
  | OnlyHours (date : string) (hours_present : nat)
  | UnusualLevel (date hour_str : string) (level : R).

(** [a <= b] on floats *)
Definition float_le (a b : R) : bool := if Rle_dec a b then true else false.

(** [not (-0.5 <= level <= 4)] *)
Definition unusual (level : R) : bool :=
  negb (float_le (-0.5) level && float_le level 4).

(** The body of [for day in daily_tides:].  The entries of the day are
    visited in the order of [map_to_list]. *)
Definition validate_day (day : DailyRecord) : list finding :=
  let date := Date day in
  let hours_present := size (hours day) in
  (if decide (hours_present ≠ 24%nat) then [OnlyHours date hours_present] else [])
  ++ flat_map (fun '(hour_str, level) =>
                 if unusual level then [UnusualLevel date hour_str level] else [])
              (map_to_list (hours day)).

(** [validate_output] is passed the list object [daily_tides]; it returns
    its list of issues, and the object as the call leaves it. *)
Definition validate_output (daily_tides : list DailyRecord)
    : list finding * list DailyRecord :=
  (flat_map validate_day daily_tides, daily_tides).

(** ** [main] *)

(** The run on the rows of the input file: the list [json.dump] writes and
    the issues reported, or the exception that ends the run before
    [open(output_json, 'w')]. *)
Definition main (rows : list row) : result (list DailyRecord * list finding) :=
  extrema ← parse_csv_to_extrema rows;
  daily_tides ← generate_hourly_tides extrema;
  let '(issues, daily_tides) := validate_output daily_tides in
  Ok (daily_tides, issues).

(** ** The renderer: [generate_tide_pdf.py] *)

Module Pdf.

(** [s.split(sep)] for a separator of one character. *)
Fixpoint split_chars (sep : ascii) (l : list ascii) : list (list ascii) :=
  match l with
  | [] => [[]]
  | c :: l' =>
      if Ascii.eqb c sep then [] :: split_chars sep l'
      else match split_chars sep l' with
           | part :: parts => (c :: part) :: parts
           | [] => [[c]]
           end
  end.

Definition split (sep : ascii) (s : string) : list string :=
  string_of_list_ascii <$> split_chars sep (list_ascii_of_string s).

(** [l[i]] on a list, for an index that is not negative. *)
Definition item {A : Type} (l : list A) (i : nat) : result A :=
  match l !! i with
  | Some a => Ok a
  | None => Raise IndexError
  end.

(** [a, b = l] *)
Definition unpack2 {A : Type} (l : list A) : result (A * A) :=
  match l with
  | [a; b] => Ok (a, b)
  | _ => Raise ValueError
  end.

(** [enumerate(l)] *)
Definition enumerate {A : Type} (l : list A) : list (nat * A) :=
  imap (fun i a => (i, a)) l.

(** [sorted(d.items())] on a dictionary with string keys: the keys are
    distinct, so the items are in the order of their keys. *)
Definition sorted_items {V : Type} `{Inhabited V} (d : gmap string V)
    : list (string * V) :=
  (fun k => (k, d !!! k)) <$> merge_sort String.le (map_to_list d).*1.

(** A value of a day of the JSON file: a string or a number. *)
Inductive value : Type :=
  | Str (s : string)
  | Num (x : R).

(** A day of the list [json.load] returns: the string under ["Date"], if
    the day has that key, and the values under its other keys. *)
Record TideDay : Type :=
  { date_entry : option string; level_entries : gmap string value }.

(** [day['Date']] *)
Definition subscript_date (day : TideDay) : result string :=
  match date_entry day with
  | Some date => Ok date
  | None => Raise KeyError
  end.

(** *** [group_by_month] *)

(** The body of [for day in tide_data:]. *)
Definition group_day (months : gmap string (list TideDay)) (day : TideDay)
    : result (gmap string (list TideDay)) :=
  date ← subscript_date day;
  let year_month := Py.slice_to 7 date in
  let months :=
    match months !! year_month with
    | Some _ => months
    | None => <[year_month := []]> months
    end in
  group ← getitem months year_month;
  Ok (<[year_month := group ++ [day]]> months).

Definition group_by_month (tide_data : list TideDay)
    : result (gmap string (list TideDay)) :=
  for_each group_day tide_data ∅.

(** *** [create_month_table] *)

Section Table.

(** [f'{x:.1f}']: the text of a float with one decimal. *)
Variable format_1f : R → string.

(** The text of the cell of a tide level that is not [''], and of one
    that is. *)
Definition level_cell (tide_level : value) : result string :=
  match tide_level with
  | Str "" => Ok ""
  | Str s => x ← Py.float s; Ok (format_1f x)
  | Num x => Ok (format_1f x)
  end.

(** The body of [for h in range(24):]. *)
Definition hour_cell (day_data : TideDay) (row : list string) (h : Z)
    : result (list string) :=
  let hour_key := zero_pad 2 h +:+ ":00" in
  let tide_level := default (Str "") (level_entries day_data !! hour_key) in
  cell ← level_cell tide_level;
  Ok (row ++ [cell]).

(** The body of [for day_data in month_data:]. *)
Definition table_row (data : list (list string)) (day_data : TideDay)
    : result (list (list string)) :=
  date ← subscript_date day_data;
  field ← item (split "-" date) 2;
  day ← Py.int field;
  row ← for_each (hour_cell day_data) (seqZ 0 24) [pretty day];
  Ok (data ++ [row]).

Definition create_month_table (month_data : list TideDay)
    : result (list (list string)) :=
  let header := ["Day"] ++ ((fun h => zero_pad 2 h) <$> seqZ 0 24) in
  for_each table_row month_data [header].

(** *** [generate_pdf] *)

(** The flowables [generate_pdf] builds, by what they show: a paragraph
    by its text and the name of its style, a table by its data. *)
Inductive flowable : Type :=
  | Paragraph (text style : string)
  | Table (data : list (list string))
  | Spacer
  | PageBreak.

Definition month_names : gmap string string :=
  list_to_map
    [("01", "JANUARY"); ("02", "FEBRUARY"); ("03", "MARCH"); ("04", "APRIL");
     ("05", "MAY"); ("06", "JUNE"); ("07", "JULY"); ("08", "AUGUST");
     ("09", "SEPTEMBER"); ("10", "OCTOBER"); ("11", "NOVEMBER");
     ("12", "DECEMBER")].

(** The body of [for i, (year_month, month_data) in enumerate(...):], for
    [count] months. *)
Definition month_page (location : string) (count : nat)
    (elements : list flowable) (entry : nat * (string * list TideDay))
    : result (list flowable) :=
  let '(i, (year_month, month_data)) := entry in
  '(year, month) ← unpack2 (split "-" year_month);
  month_name ← getitem month_names month;
  let title := Paragraph "HOURLY TIDAL HEIGHTS" "CustomTitle" in
  let subtitle :=
    Paragraph (location +:+ "<br/>" +:+ month_name +:+ " " +:+ year)
              "CustomSubtitle" in
  let elements := elements ++ [title] ++ [subtitle] in
  table_data ← create_month_table month_data;
  let elements := elements ++ [Table table_data] in
  let footer_text :=
    Paragraph ("Tide heights in meters relative to chart datum. "
               +:+ "Generated from official tide predictions.") "Footer" in
  let elements := elements ++ [Spacer] ++ [footer_text] in
  if Z.of_nat i <? Z.of_nat count - 1 then Ok (elements ++ [PageBreak])
  else Ok elements.

(** The list of flowables [doc.build] is passed. *)
Definition generate_pdf (tide_data : list TideDay) (location : string)
    : result (list flowable) :=
  months_data ← group_by_month tide_data;
  for_each (month_page location (size months_data))
           (enumerate (sorted_items months_data)) [].

(** *** [main] *)

(** The run on the days of the input file: the flowables of the document
    and the number of pages reported, or the exception. *)
Definition main (tide_data : list TideDay) (location : string)
    : result (list flowable * nat) :=
  elements ← generate_pdf tide_data location;
  year_months ← comprehension
                  (fun day => date ← subscript_date day; Ok (Py.slice_to 7 date))
                  tide_data;
  let months := size (list_to_set (C := gset string) year_months) in
  Ok (elements, months).

End Table.

End Pdf.

(** * Part II: the vocabulary of the specification *)

(** Linear arithmetic with division and remainder by constants. *)
Ltac zlia := Z.div_mod_to_equations; lia.

(** ** Interpolation *)

(** The easing curve [s = 0.5 * (1 + sin(pi * x - pi / 2))] as a function
    of the fraction [x]. *)
Definition half_sine (x : R) : R := (0.5 * (1 + sin (PI * x - PI / 2)))%R.

(** The height the interpolation rule gives at [t] between [e0] and [e1]. *)
Definition interpolate (t : Z) (e0 e1 : extremum) : R :=
  if t <=? time e0 then height e0
  else if time e1 <=? t then height e1
  else (height e0 + (height e1 - height e0)
          * half_sine (IZR (t - time e0) / IZR (time e1 - time e0)))%R.

(** ** Strings and dates *)

(** [s1 < s2] on strings. *)
Definition str_lt (s1 s2 : string) : Prop := String.compare s1 s2 = Lt.

(** [(y, m, d) < (y', m', d')] on tuples. *)
Definition lex_lt (a b : Z * Z * Z) : bool :=
  let '(y, m, d) := a in
  let '(y', m', d') := b in
  (y <? y') || ((y =? y') && ((m <? m') || ((m =? m') && (d <? d')))).

(** A check that holds of [count] consecutive integers from [z]. *)
Fixpoint all_from (f : Z → bool) (count : nat) (z : Z) : bool :=
  match count with
  | O => true
  | S count' => f z && all_from f count' (z + 1)
  end.

(** The fields of a date of the first 400 years. *)
Definition ymd_bounds (p : Z * Z * Z) : bool :=
  let '(y, m, d) := p in
  (1 <=? y) && (y <=? 400) && (1 <=? m) && (m <=? 12) && (1 <=? d) && (d <=? 31).

(** The fields [p] found for place [n] of the first cycle are in bounds
    and are those of ordinal [n + 1]. *)
Definition day_check (n : Z) (p : Z * Z * Z) : bool :=
  let '(y, m, d) := p in ymd_bounds p && (ymd2ord y m d =? n + 1).

(** [_ord2ymd] after its three divisions by the lengths of 400, 100 and 4
    years: the date at place [n] of a block of four years that starts
    with year [year0]; [leap_ok] tells whether the fourth year is a leap
    year. *)
Definition ord2ymd_in_block (year0 : Z) (n100_is_4 leap_ok : bool) (n : Z)
    : Z * Z * Z :=
  let n1 := n / 365 in
  let n := n mod 365 in
  let year := year0 + n1 in
  if (n1 =? 4) || n100_is_4 then (year - 1, 12, 31)
  else
    let leapyear := (n1 =? 3) && leap_ok in
    let month := Z.shiftr (n + 50) 5 in
    let preceding :=
      days_before_month_table month
      + (if (2 <? month) && leapyear then 1 else 0) in
    if n <? preceding then
      let month := month - 1 in
      let preceding :=
        preceding - (days_in_month_table month
                     + (if (month =? 2) && leapyear then 1 else 0)) in
      (year, month, n - preceding + 1)
    else (year, month, n - preceding + 1).

(** The date found for place [c] of a block is in the block, and is day
    [c + 1] of it. *)
Definition block_check (leap_ok : bool) (c : Z) (p : Z * Z * Z) : bool :=
  let '(y, m, d) := p in
  (0 <=? y) && (y <=? 3) && (1 <=? m) && (m <=? 12) && (1 <=? d) && (d <=? 31)
  && (y * 365 + days_before_month_table m
      + (if (2 <? m) && ((y =? 3) && leap_ok) then 1 else 0) + d =? c + 1).

(** One pass over a block: every day passes [block_check] and is before
    the next. *)
Fixpoint block_scan (leap_ok : bool) (count : nat) (c : Z) (prev : Z * Z * Z)
    : bool :=
  match count with
  | O => block_check leap_ok c prev
  | S count' =>
      let cur := ord2ymd_in_block 0 false leap_ok (c + 1) in
      block_check leap_ok c prev && lex_lt prev cur
      && block_scan leap_ok count' (c + 1) cur
  end.

(** ** Extrema and hour ticks *)

(** The datetimes of Python: 0001-01-01 00:00 to 9999-12-31 23:59. *)
Definition valid_datetime (t : Z) : Prop := 1 * 1440 ≤ t < 3652060 * 1440.

(** The extrema are in ascending order of time (ties allowed). *)
Definition time_sorted (extrema : list extremum) : Prop :=
  StronglySorted (fun a b => time a ≤ time b) extrema.

(** A datetime on the hour. *)
Definition hour_tick (t : Z) : Prop := t mod 60 = 0.

(** The first and the last tick of the loop: hour 0 of the day of the
    first extremum, hour 23 of the day of the last. *)
Definition range_start (e : extremum) : Z := time e / 1440 * 1440.
Definition range_end (e : extremum) : Z := time e / 1440 * 1440 + 23 * 60.

(** The first pair of consecutive extrema that brackets [t]. *)
Fixpoint bracket (extrema : list extremum) (t : Z) : option (extremum * extremum) :=
  match extrema with
  | e0 :: (e1 :: _) as rest =>
      if (time e0 <=? t) && (t <=? time e1) then Some (e0, e1)
      else bracket rest t
  | _ => None
  end.

(** The sample of tick [t], if it has one. *)
Definition sample (extrema : list extremum) (t : Z) : option R :=
  (fun p => Py.round1 (interpolate t p.1 p.2)) <$> bracket extrema t.

(** ** Days *)

(** The height a dictionary of days holds under a date and an hour, and
    the one it holds for a tick. *)
Definition lookup2 (d : gmap string DailyRecord) (ks hs : string) : option R :=
  d !! ks ≫= fun day => hours day !! hs.

Definition entry (d : gmap string DailyRecord) (t : Z) : option R :=
  lookup2 d (strftime_date t) (strftime_hour t).

(** The dictionary after a sample is recorded. *)
Definition record_sample (t : Z) (v : R) (d : gmap string DailyRecord)
    : gmap string DailyRecord :=
  let day := default {| Date := strftime_date t; hours := ∅ |}
                     (d !! strftime_date t) in
  <[strftime_date t :=
      {| Date := Date day; hours := <[strftime_hour t := v]> (hours day) |}]> d.

(** The hour entries of a day are those of ticks of its date between [lo]
    and [hi], and there is one at least. *)
Definition day_wf (lo hi : Z) (day : DailyRecord) : Prop :=
  (∃ hs, is_Some (hours day !! hs)) ∧
  ∀ hs, is_Some (hours day !! hs) →
    ∃ t, hour_tick t ∧ lo ≤ t ≤ hi ∧
         strftime_date t = Date day ∧ strftime_hour t = hs.

(** Every day of the dictionary is filed under its date. *)
Definition days_wf (lo hi : Z) (d : gmap string DailyRecord) : Prop :=
  ∀ ks day, d !! ks = Some day → Date day = ks ∧ day_wf lo hi day.

(** The heights the output holds for the date and hour of [t]. *)
Definition samples_at (out : list DailyRecord) (t : Z) : list R :=
  omap (fun day => hours day !! strftime_hour t)
       (filter (fun day => Date day = strftime_date t) out).

(** ** Rejected input *)



(** ** Sample data *)

(** The datetime of a calendar date and a time of day. *)
Definition at_time (year month day hour minute : Z) : Z :=
  (ymd2ord year month day * 24 + hour) * 60 + minute.

(** A row of the input file, by its nine fields. *)
Definition csv_row (date t1 h1 t2 h2 t3 h3 t4 h4 : string) : row :=
  list_to_map
    [("Date", date); ("Time1", t1); ("Height1", h1); ("Time2", t2);
     ("Height2", h2); ("Time3", t3); ("Height3", h3); ("Time4", t4);
     ("Height4", h4)].

(** The day of the module's docstring. *)
Definition docstring_row : row :=
  csv_row "2025-12-01" "0107" "1.1" "0746" "2.7" "1400" "1.1" "2018" "2.6".

Definition docstring_extrema : list extremum :=
  [ Extremum (at_time 2025 12 1 1 7) (11 / 10);
    Extremum (at_time 2025 12 1 7 46) (27 / 10);
    Extremum (at_time 2025 12 1 14 0) (11 / 10);
    Extremum (at_time 2025 12 1 20 18) (26 / 10) ].

(** Three extrema over three days. *)
Definition three_day_extrema : list extremum :=
  [ Extremum (at_time 2025 12 1 20 18) (26 / 10);
    Extremum (at_time 2025 12 2 7 46) (27 / 10);
    Extremum (at_time 2025 12 3 1 7) (11 / 10) ].

(** A row with a three-character time, and a row with the malformed time
    of the specification. *)
Definition short_time_row : row :=
  csv_row "2025-12-01" "107" "1.1" "" "" "" "" "" "".

(** The implausible height of the specification: a high tide of 10.0 m,
    here at 06:00. *)
Definition implausible_row : row :=
  csv_row "2025-12-01" "0600" "10.0" "1200" "1.0" "" "" "" "".

(** ** Rows and slots *)

(** The trimmed time and height of slot [i] of a row. *)
Definition slot_time (r : row) (i : Z) : string :=
  Py.strip (row_get r ("Time" +:+ pretty i)).
Definition slot_height (r : row) (i : Z) : string :=
  Py.strip (row_get r ("Height" +:+ pretty i)).

(** A slot is filled when neither is empty. *)
Definition slot_filled (r : row) (i : Z) : bool :=
  Py.truthy (slot_time r i) && Py.truthy (slot_height r i).


(** The number of extrema a row stands for: its filled slots, unless its
    date starts with [EXAMPLE]. *)
Definition filled_slots (r : row) : nat :=
  match r !! "Date" with
  | Some date_str =>
      if String.prefix "EXAMPLE" date_str then 0%nat
      else length (filter (fun i => slot_filled r i = true) [1; 2; 3; 4])
  | None => 0%nat
  end.

(** ** More of the calendar *)

(** The day found for a place of a block is a day of its month. *)
Definition block_day_check (leap_ok : bool) (p : Z * Z * Z) : bool :=
  let '(y, m, d) := p in
  d <=? days_in_month_table m
        + (if (m =? 2) && ((y =? 3) && leap_ok) then 1 else 0).

(** The first date whose year has four digits, 1000-01-01. *)
Definition first_four_digit_ordinal : Z := ymd2ord 1000 1 1.

(** ** The renderer *)

(** The year and month under which [group_by_month] files a day. *)
Definition year_month_of (day : Pdf.TideDay) : option string :=
  Py.slice_to 7 <$> Pdf.date_entry day.

(** The days of a list that are filed under [year_month]. *)
Definition days_of_month (year_month : string) (tide_data : list Pdf.TideDay)
    : list Pdf.TideDay :=
  filter (fun day => year_month_of day = Some year_month) tide_data.

(** A day of the converter's output as [json.load] returns it from the
    file [json.dump] wrote. *)
Definition load_day (day : DailyRecord) : Pdf.TideDay :=
  {| Pdf.date_entry := Some (Date day);
     Pdf.level_entries := Pdf.Num <$> hours day |}.

(** The tables of a list of flowables, and its page breaks. *)
Definition tables (elements : list Pdf.flowable) : list (list (list string)) :=
  omap (fun f => match f with Pdf.Table data => Some data | _ => None end)
       elements.

Definition page_breaks (elements : list Pdf.flowable) : nat :=
  length (omap (fun f => match f with Pdf.PageBreak => Some f | _ => None end)
               elements).

(** The header of a month table. *)
Definition table_header : list string :=
  "Day" :: ((fun h => zero_pad 2 h) <$> seqZ 0 24).

(** The cell of an hour of a day, and the row of a day: the number of the
    day, the third field of its date, and its 24 cells. *)
Definition day_cell (format_1f : R → string) (day_data : Pdf.TideDay) (h : Z)
    : result string :=
  Pdf.level_cell format_1f
    (default (Pdf.Str "") (Pdf.level_entries day_data !! hour_string h)).

Definition day_row (format_1f : R → string) (day_data : Pdf.TideDay)
    : result (list string) :=
  date ← Pdf.subscript_date day_data;
  field ← Pdf.item (Pdf.split "-" date) 2;
  day ← Py.int field;
  cells ← comprehension (day_cell format_1f day_data) (seqZ 0 24);
  Ok (pretty day :: cells).

(** The row of a day of the converter's output, of ordinal [n]: the day
    of the month, and for every hour the text of its height, or nothing
    where the day has no sample. *)
Definition record_row (format_1f : R → string) (n : Z) (day : DailyRecord)
    : list string :=
  pretty (ord2ymd n).2
  :: ((fun h => match hours day !! hour_string h with
                | Some v => format_1f v
                | None => ""
                end) <$> seqZ 0 24).


(** The year and month of a day that has a date. *)
Definition year_month_key (day : Pdf.TideDay) : string :=
  Py.slice_to 7 (default "" (Pdf.date_entry day)).

(** Two days of a file, on either side of a new year, and the text the
    samples show for every height. *)
Definition new_year_days : list Pdf.TideDay :=
  [ {| Pdf.date_entry := Some "2025-12-31";
       Pdf.level_entries := {[ "06:00" := Pdf.Num 1 ]} |};
    {| Pdf.date_entry := Some "2026-01-01";
       Pdf.level_entries := {[ "07:00" := Pdf.Str "2.5" ]} |} ].

Definition sample_format : R → string := fun _ => "0.0".

(** * Part III: properties *)

(** ** Dictionaries, loops and sorted lists *)

Lemma getitem_Some `{Countable K} {V : Type} (d : gmap K V) (k : K) (v : V) :
  d !! k = Some v → getitem d k = Ok v.
Proof. unfold getitem. by intros ->. Qed.

Lemma comprehension_getitem (d : gmap string DailyRecord) (keys : list string) :
  (∀ k, k ∈ keys → is_Some (d !! k)) →
  ∃ out, comprehension (getitem d) keys = Ok out ∧
         Forall2 (fun k day => d !! k = Some day) keys out.
Proof.
  induction keys as [|k keys IH]; intros Hin.
  - exists []. by split.
  - destruct (Hin k) as [day Hday]; [by left|].
    destruct IH as (out & Hout & Hall).
    { intros k' Hk'. apply Hin. by right. }
    exists (day :: out). cbn [comprehension].
    rewrite (getitem_Some _ _ _ Hday), Hout. split; [done|]. by constructor.
Qed.






Lemma all_from_spec f count z :
  all_from f count z = true → ∀ k, z ≤ k < z + Z.of_nat count → f k = true.
Proof.
  revert z. induction count as [|count IH]; intros z Hall k Hk; [lia|].
  cbn [all_from] in Hall. apply andb_true_iff in Hall as [Hz Hall].
  destruct (decide (k = z)) as [->|Hne]; [done|].
  apply (IH (z + 1)); [done|lia].
Qed.

(** A function that grows at every step of a range grows over the range. *)
Lemma adjacent_monotone {A} (Rel : relation A) `{!Transitive Rel}
    (f : Z → A) (lo hi : Z) :
  (∀ k, lo ≤ k < hi → Rel (f k) (f (k + 1))) →
  ∀ a b, lo ≤ a → a < b → b ≤ hi → Rel (f a) (f b).
Proof.
  intros Hstep a b Hlo Hab Hhi.
  assert (∃ n : nat, b = a + 1 + Z.of_nat n) as [n ->]
    by (exists (Z.to_nat (b - a - 1)); lia).
  clear Hab. induction n as [|n IH].
  - rewrite Z.add_0_r. apply Hstep. lia.
  - trans (f (a + 1 + Z.of_nat n)); [apply IH; lia|].
    replace (a + 1 + Z.of_nat (S n)) with (a + 1 + Z.of_nat n + 1) by lia.
    apply Hstep. lia.
Qed.

(** ** Strings *)

Lemma compare_refl s : String.compare s s = Eq.
Proof.
  induction s as [|a s IH]; [done|]. cbn.
  unfold Ascii.compare. by rewrite N.compare_refl.
Qed.

Lemma str_lt_le s1 s2 : str_lt s1 s2 → String.le s1 s2.
Proof. unfold str_lt, String.le, String.leb. by intros ->. Qed.

Lemma str_lt_ne s1 s2 : str_lt s1 s2 → s1 ≠ s2.
Proof. unfold str_lt. intros Hlt ->. by rewrite compare_refl in Hlt. Qed.

Lemma str_le_ne_lt s1 s2 : String.le s1 s2 → s1 ≠ s2 → str_lt s1 s2.
Proof.
  unfold String.le, String.leb, str_lt.
  destruct (String.compare s1 s2) eqn:Hc; [|done..].
  intros _ Hne. by apply String.compare_eq_iff in Hc.
Qed.

Lemma str_lt_trans s1 s2 s3 : str_lt s1 s2 → str_lt s2 s3 → str_lt s1 s3.
Proof.
  intros H12 H23. apply str_le_ne_lt.
  - etrans; by apply str_lt_le.
  - intros ->. apply (str_lt_ne _ _ H12).
    apply (anti_symm String.le); by apply str_lt_le.
Qed.

#[local] Instance str_lt_transitive : Transitive str_lt.
Proof. intros ???. apply str_lt_trans. Qed.

Lemma compare_app_same s r1 r2 :
  String.compare (s +:+ r1) (s +:+ r2) = String.compare r1 r2.
Proof.
  induction s as [|a s IH]; [done|].
  change (String.compare (String a (s +:+ r1)) (String a (s +:+ r2)) = String.compare r1 r2).
  cbn [String.compare]. unfold Ascii.compare. by rewrite N.compare_refl.
Qed.

Lemma str_lt_app s1 s2 r1 r2 :
  String.length s1 = String.length s2 → str_lt s1 s2 → str_lt (s1 +:+ r1) (s2 +:+ r2).
Proof.
  unfold str_lt. revert s2.
  induction s1 as [|a1 s1 IH]; intros [|a2 s2] Hlen; try done.
  change (String.compare (String a1 s1) (String a2 s2) = Lt →
          String.compare (String a1 (s1 +:+ r1)) (String a2 (s2 +:+ r2)) = Lt).
  cbn [String.compare]. destruct (Ascii.compare a1 a2); [|done..].
  apply IH. cbn in Hlen. lia.
Qed.

Lemma ltb_str_lt s1 s2 : String.ltb s1 s2 = true → str_lt s1 s2.
Proof. unfold String.ltb, str_lt. by destruct (String.compare s1 s2). Qed.

(** [s1 < s2] makes a strict order of the sorted keys. *)
Lemma StronglySorted_le_lt (l : list string) :
  StronglySorted String.le l → NoDup l → StronglySorted str_lt l.
Proof.
  induction 1 as [|x l Hl IH Hx]; intros Hnd; [constructor|].
  apply NoDup_cons in Hnd as [Hnotin Hnd].
  constructor; [by apply IH|].
  rewrite Forall_forall in Hx |- *. intros y Hy.
  apply str_le_ne_lt; [by apply Hx|]. by intros ->.
Qed.

Lemma StronglySorted_lt_NoDup (l : list string) :
  StronglySorted str_lt l → NoDup l.
Proof.
  induction 1 as [|x l Hl IH Hx]; [constructor|].
  constructor; [|done]. intros Hin.
  rewrite Forall_forall in Hx. by apply (str_lt_ne x x (Hx x Hin)).
Qed.

(** ** Zero-padded numbers *)

Lemma zero_pad_length w n : String.length (zero_pad w n) = w.
Proof. induction w as [|w IH]; cbn; [done|]. by rewrite IH. Qed.

Lemma zero_pad2_steps :
  all_from (fun n => String.ltb (zero_pad 2 n) (zero_pad 2 (n + 1))) (Z.to_nat 99) 0 = true.
Proof. vm_compute. reflexivity. Qed.

Lemma zero_pad4_steps :
  all_from (fun n => String.ltb (zero_pad 4 n) (zero_pad 4 (n + 1))) (Z.to_nat 9999) 0 = true.
Proof. vm_compute. reflexivity. Qed.

Lemma zero_pad2_lt a b : 0 ≤ a → a < b → b ≤ 99 → str_lt (zero_pad 2 a) (zero_pad 2 b).
Proof.
  apply (adjacent_monotone str_lt (zero_pad 2) 0 99).
  intros k Hk. apply ltb_str_lt.
  apply (all_from_spec _ _ _ zero_pad2_steps). lia.
Qed.

Lemma zero_pad4_lt a b : 0 ≤ a → a < b → b ≤ 9999 → str_lt (zero_pad 4 a) (zero_pad 4 b).
Proof.
  apply (adjacent_monotone str_lt (zero_pad 4) 0 9999).
  intros k Hk. apply ltb_str_lt.
  apply (all_from_spec _ _ _ zero_pad4_steps). lia.
Qed.

Lemma hour_string_inj h1 h2 :
  0 ≤ h1 ≤ 99 → 0 ≤ h2 ≤ 99 → hour_string h1 = hour_string h2 → h1 = h2.
Proof.
  intros H1 H2 Heq. unfold hour_string in Heq.
  destruct (Z.lt_trichotomy h1 h2) as [Hlt|[->|Hgt]]; [|done|]; exfalso.
  - eapply (str_lt_ne (zero_pad 2 h1 +:+ ":00")); [|exact Heq].
    apply str_lt_app; [by rewrite !zero_pad_length|apply zero_pad2_lt; lia].
  - eapply (str_lt_ne (zero_pad 2 h2 +:+ ":00")); [|symmetry; exact Heq].
    apply str_lt_app; [by rewrite !zero_pad_length|apply zero_pad2_lt; lia].
Qed.

(** ** The calendar *)

(** The place in a cycle fixes month and day, and the year within the
    cycle. *)
Lemma ord2ymd_in_cycle_shift n400 n :
  ord2ymd_in_cycle n400 n =
    let '(y, m, d) := ord2ymd_in_cycle 0 n in (y + n400 * 400, m, d).
Proof.
  unfold ord2ymd_in_cycle. cbv zeta.
  repeat match goal with
         | |- context [if ?b then _ else _] => destruct b
         end; f_equal; try f_equal; lia.
Qed.

Lemma lex_lt_spec y m d y' m' d' :
  lex_lt (y, m, d) (y', m', d') = true ↔
  y < y' ∨ (y = y' ∧ (m < m' ∨ (m = m' ∧ d < d'))).
Proof.
  unfold lex_lt.
  rewrite !orb_true_iff, !andb_true_iff, !orb_true_iff, !andb_true_iff.
  rewrite !Z.ltb_lt, !Z.eqb_eq. tauto.
Qed.

#[local] Instance lex_lt_transitive : Transitive (fun a b => lex_lt a b = true).
Proof.
  intros [[y1 m1] d1] [[y2 m2] d2] [[y3 m3] d3].
  rewrite !lex_lt_spec. lia.
Qed.

Lemma ymd_bounds_spec y m d :
  ymd_bounds (y, m, d) = true ↔ 1 ≤ y ≤ 400 ∧ 1 ≤ m ≤ 12 ∧ 1 ≤ d ≤ 31.
Proof. unfold ymd_bounds. rewrite !andb_true_iff, !Z.leb_le. lia. Qed.

Lemma day_check_spec n y m d :
  day_check n (y, m, d) = true ↔
  (1 ≤ y ≤ 400 ∧ 1 ≤ m ≤ 12 ∧ 1 ≤ d ≤ 31) ∧ ymd2ord y m d = n + 1.
Proof.
  unfold day_check. by rewrite andb_true_iff, ymd_bounds_spec, Z.eqb_eq.
Qed.

Lemma block_check_spec leap_ok c y m d :
  block_check leap_ok c (y, m, d) = true ↔
  (0 ≤ y ≤ 3 ∧ 1 ≤ m ≤ 12 ∧ 1 ≤ d ≤ 31) ∧
  y * 365 + days_before_month_table m
  + (if (2 <? m) && ((y =? 3) && leap_ok) then 1 else 0) + d = c + 1.
Proof.
  unfold block_check. rewrite !andb_true_iff, !Z.leb_le, Z.eqb_eq. lia.
Qed.

Lemma block_scan_spec leap_ok count c :
  block_scan leap_ok count c (ord2ymd_in_block 0 false leap_ok c) = true →
  ∀ k, c ≤ k ≤ c + Z.of_nat count →
    block_check leap_ok k (ord2ymd_in_block 0 false leap_ok k) = true ∧
    (k < c + Z.of_nat count →
     lex_lt (ord2ymd_in_block 0 false leap_ok k)
            (ord2ymd_in_block 0 false leap_ok (k + 1)) = true).
Proof.
  revert c. induction count as [|count IH]; intros c Hscan k Hk.
  - cbn [block_scan] in Hscan. assert (k = c) as -> by lia. split; [done|lia].
  - cbn [block_scan] in Hscan. cbv zeta in Hscan.
    apply andb_true_iff in Hscan as [Hscan Hrest].
    apply andb_true_iff in Hscan as [Hb Hlt].
    destruct (decide (k = c)) as [->|Hne]; [done|].
    destruct (IH (c + 1) Hrest k) as [H1 H2]; [lia|].
    split; [done|]. intros ?. apply H2. lia.
Qed.

Lemma leap_block_scanned :
  block_scan true (Z.to_nat 1460) 0 (ord2ymd_in_block 0 false true 0) = true.
Proof. vm_compute. reflexivity. Qed.

Lemma common_block_scanned :
  block_scan false (Z.to_nat 1459) 0 (ord2ymd_in_block 0 false false 0) = true.
Proof. vm_compute. reflexivity. Qed.

(** The days of a block: 1461 of them, or 1460 when its fourth year is
    not a leap year. *)
Lemma block_scanned (leap_ok : bool) k :
  0 ≤ k ≤ (if leap_ok then 1460 else 1459) →
  block_check leap_ok k (ord2ymd_in_block 0 false leap_ok k) = true ∧
  (k < (if leap_ok then 1460 else 1459) →
   lex_lt (ord2ymd_in_block 0 false leap_ok k)
          (ord2ymd_in_block 0 false leap_ok (k + 1)) = true).
Proof.
  intros Hk. destruct leap_ok.
  - destruct (block_scan_spec _ _ _ leap_block_scanned k) as [H1 H2]; [lia|].
    split; [done|]. intros ?. apply H2. lia.
  - destruct (block_scan_spec _ _ _ common_block_scanned k) as [H1 H2]; [lia|].
    split; [done|]. intros ?. apply H2. lia.
Qed.

Lemma ord2ymd_in_block_shift year0 leap_ok c :
  ord2ymd_in_block year0 false leap_ok c =
    let '(y, m, d) := ord2ymd_in_block 0 false leap_ok c in (year0 + y, m, d).
Proof.
  unfold ord2ymd_in_block. cbv zeta.
  repeat match goal with
         | |- context [if ?b then _ else _] => destruct b
         end; f_equal; try f_equal; lia.
Qed.

(** [ord2ymd_in_cycle] by the block of the place. *)
Lemma ord2ymd_in_cycle_block n400 n :
  ord2ymd_in_cycle n400 n =
    ord2ymd_in_block
      (n400 * 400 + 1 + n / 36524 * 100 + n mod 36524 / 1461 * 4)
      (n / 36524 =? 4)
      (negb (n mod 36524 / 1461 =? 24) || (n / 36524 =? 3))
      (n mod 36524 mod 1461).
Proof. reflexivity. Qed.

(** The leap years of a cycle, by the place of the year in it. *)
Lemma is_leap_in_cycle a b y :
  0 ≤ a ≤ 3 → 0 ≤ b ≤ 24 → 0 ≤ y ≤ 3 →
  is_leap (1 + a * 100 + b * 4 + y) = (y =? 3) && (negb (b =? 24) || (a =? 3)).
Proof.
  intros Ha Hb Hy. unfold is_leap.
  repeat match goal with
         | |- context [?x =? ?z] => destruct (Z.eqb_spec x z)
         end; cbn; try reflexivity; exfalso; zlia.
Qed.

Lemma days_before_year_in_cycle a b y :
  0 ≤ a ≤ 3 → 0 ≤ b ≤ 24 → 0 ≤ y ≤ 3 →
  days_before_year (1 + a * 100 + b * 4 + y) = a * 36524 + b * 1461 + y * 365.
Proof. intros Ha Hb Hy. unfold days_before_year. zlia. Qed.

(** Every place of a cycle but the last is in a block. *)
Lemma place_in_block k :
  0 ≤ k < 146096 →
  0 ≤ k / 36524 ≤ 3 ∧ 0 ≤ k mod 36524 / 1461 ≤ 24 ∧
  0 ≤ k mod 36524 mod 1461 ≤
    (if negb (k mod 36524 / 1461 =? 24) || (k / 36524 =? 3) then 1460 else 1459) ∧
  k = k / 36524 * 36524 + k mod 36524 / 1461 * 1461 + k mod 36524 mod 1461.
Proof.
  intros Hk. split_and!; try zlia.
  destruct (Z.eqb_spec (k mod 36524 / 1461) 24); cbn; [|zlia].
  destruct (Z.eqb_spec (k / 36524) 3); zlia.
Qed.

Lemma ord2ymd_in_cycle_checked k :
  0 ≤ k < 146097 → day_check k (ord2ymd_in_cycle 0 k) = true.
Proof.
  intros Hk. destruct (decide (k = 146096)) as [->|Hne].
  { vm_compute. reflexivity. }
  destruct (place_in_block k) as (Ha & Hb & Hc & Hsum); [lia|].
  rewrite ord2ymd_in_cycle_block.
  set (a := k / 36524) in *. set (b := k mod 36524 / 1461) in *.
  set (c := k mod 36524 mod 1461) in *.
  destruct (Z.eqb_spec a 4) as [|_]; [lia|].
  set (leap_ok := negb (b =? 24) || (a =? 3)) in *.
  rewrite ord2ymd_in_block_shift.
  destruct (block_scanned leap_ok c) as [Hcheck _]; [by destruct leap_ok|].
  destruct (ord2ymd_in_block 0 false leap_ok c) as [[y m] d].
  apply block_check_spec in Hcheck as [(Hy & Hm & Hd) Hday].
  apply day_check_spec. split; [lia|].
  replace (0 * 400 + 1 + a * 100 + b * 4 + y) with (1 + a * 100 + b * 4 + y) by lia.
  unfold ymd2ord, days_before_month.
  rewrite is_leap_in_cycle, days_before_year_in_cycle by done.
  fold leap_ok. lia.
Qed.

(** Within a cycle every day is before the next. *)
Lemma ord2ymd_in_cycle_step k :
  0 ≤ k < 146096 →
  lex_lt (ord2ymd_in_cycle 0 k) (ord2ymd_in_cycle 0 (k + 1)) = true.
Proof.
  intros Hk. destruct (decide (k = 146095)) as [->|Hne].
  { vm_compute. reflexivity. }
  destruct (place_in_block k) as (Ha & Hb & Hc & Hsum); [lia|].
  destruct (place_in_block (k + 1)) as (Ha' & Hb' & Hc' & Hsum'); [lia|].
  rewrite !ord2ymd_in_cycle_block.
  set (a := k / 36524) in *. set (b := k mod 36524 / 1461) in *.
  set (c := k mod 36524 mod 1461) in *.
  set (a' := (k + 1) / 36524) in *. set (b' := (k + 1) mod 36524 / 1461) in *.
  set (c' := (k + 1) mod 36524 mod 1461) in *.
  destruct (Z.eqb_spec a 4) as [|_]; [lia|].
  destruct (Z.eqb_spec a' 4) as [|_]; [lia|].
  rewrite (ord2ymd_in_block_shift _ _ c), (ord2ymd_in_block_shift _ _ c').
  destruct (decide (c' = 0)) as [Hzero|Hsame].
  - (* the first day of the next block *)
    rewrite Hzero.
    assert (0 * 400 + 1 + a * 100 + b * 4 + 4 ≤ 0 * 400 + 1 + a' * 100 + b' * 4)
      as Hyear by (unfold a, b, a', b', c' in *; zlia).
    destruct (block_scanned (negb (b =? 24) || (a =? 3)) c) as [Hcheck _];
      [done|].
    destruct (ord2ymd_in_block 0 false (negb (b =? 24) || (a =? 3)) c)
      as [[y m] d].
    apply block_check_spec in Hcheck as [(Hy & Hm & Hd) _].
    assert (ord2ymd_in_block 0 false (negb (b' =? 24) || (a' =? 3)) 0 = (0, 1, 1))
      as -> by (by destruct (negb (b' =? 24) || (a' =? 3))).
    apply lex_lt_spec. lia.
  - (* the next day of the same block *)
    assert (a' = a ∧ b' = b ∧ c' = c + 1) as (-> & -> & Hc1)
      by (unfold a, b, c, a', b', c' in *; zlia).
    rewrite Hc1 in *.
    destruct (block_scanned (negb (b =? 24) || (a =? 3)) c) as [_ Hlt];
      [destruct (negb (b =? 24) || (a =? 3)); lia|].
    specialize (Hlt ltac:(destruct (negb (b =? 24) || (a =? 3)); lia)).
    destruct (ord2ymd_in_block 0 false (negb (b =? 24) || (a =? 3)) c)
      as [[y m] d].
    destruct (ord2ymd_in_block 0 false (negb (b =? 24) || (a =? 3)) (c + 1))
      as [[y' m'] d'].
    apply lex_lt_spec in Hlt. apply lex_lt_spec. lia.
Qed.

(** Years 400 apart have the same calendar, 146097 days apart. *)
Lemma is_leap_shift y k : is_leap (y + k * 400) = is_leap y.
Proof.
  unfold is_leap.
  assert ((y + k * 400) mod 4 = y mod 4) as -> by zlia.
  assert ((y + k * 400) mod 100 = y mod 100) as -> by zlia.
  assert ((y + k * 400) mod 400 = y mod 400) as -> by zlia.
  done.
Qed.

Lemma ymd2ord_shift y m d k :
  ymd2ord (y + k * 400) m d = ymd2ord y m d + k * 146097.
Proof.
  unfold ymd2ord, days_before_month. rewrite is_leap_shift.
  unfold days_before_year. zlia.
Qed.

(** [ord2ymd] gives the fields of the date of an ordinal: [ymd2ord] takes
    them back to it. *)
Lemma ymd2ord_ord2ymd n y m d : ord2ymd n = (y, m, d) → ymd2ord y m d = n.
Proof.
  unfold ord2ymd. cbv zeta. rewrite ord2ymd_in_cycle_shift.
  pose proof (ord2ymd_in_cycle_checked ((n - 1) mod 146097)) as Hc.
  destruct (ord2ymd_in_cycle 0 ((n - 1) mod 146097)) as [[y0 m0] d0].
  intros [= <- <- <-].
  apply day_check_spec in Hc as [_ Hc]; [|apply Z.mod_pos_bound; lia].
  rewrite ymd2ord_shift, Hc. zlia.
Qed.

(** Every day is before the next. *)
Lemma ord2ymd_step n : lex_lt (ord2ymd n) (ord2ymd (n + 1)) = true.
Proof.
  unfold ord2ymd. cbv zeta.
  replace (n + 1 - 1) with (n - 1 + 1) by lia.
  set (k := n - 1).
  pose proof (Z.mod_pos_bound k 146097 eq_refl) as Hr.
  rewrite (ord2ymd_in_cycle_shift (k / 146097)),
          (ord2ymd_in_cycle_shift ((k + 1) / 146097)).
  destruct (decide (k mod 146097 = 146096)) as [Hlast|Hin].
  - assert ((k + 1) mod 146097 = 0) as -> by zlia.
    assert ((k + 1) / 146097 = k / 146097 + 1) as -> by zlia.
    rewrite Hlast.
    assert (ord2ymd_in_cycle 0 146096 = (400, 12, 31)) as ->
      by (vm_compute; reflexivity).
    assert (ord2ymd_in_cycle 0 0 = (1, 1, 1)) as -> by (vm_compute; reflexivity).
    apply lex_lt_spec. lia.
  - assert ((k + 1) mod 146097 = k mod 146097 + 1) as -> by zlia.
    assert ((k + 1) / 146097 = k / 146097) as -> by zlia.
    pose proof (ord2ymd_in_cycle_step (k mod 146097) ltac:(lia)) as Hlt.
    destruct (ord2ymd_in_cycle 0 (k mod 146097)) as [[y m] d].
    destruct (ord2ymd_in_cycle 0 (k mod 146097 + 1)) as [[y' m'] d'].
    apply lex_lt_spec in Hlt. apply lex_lt_spec. lia.
Qed.

Lemma ord2ymd_lt a b : a < b → lex_lt (ord2ymd a) (ord2ymd b) = true.
Proof.
  intros Hab.
  apply (adjacent_monotone (fun p q => lex_lt p q = true) ord2ymd a b);
    [|lia..].
  intros k _. apply ord2ymd_step.
Qed.

(** The fields of the dates of [datetime]: 0001-01-01 to 9999-12-31. *)
Lemma ord2ymd_bounds n y m d :
  1 ≤ n ≤ 3652059 → ord2ymd n = (y, m, d) →
  1 ≤ y ≤ 9999 ∧ 1 ≤ m ≤ 12 ∧ 1 ≤ d ≤ 31.
Proof.
  intros Hn Hymd.
  assert (1 ≤ m ≤ 12 ∧ 1 ≤ d ≤ 31) as Hmd.
  { unfold ord2ymd in Hymd. cbv zeta in Hymd.
    rewrite ord2ymd_in_cycle_shift in Hymd.
    pose proof (ord2ymd_in_cycle_checked ((n - 1) mod 146097)) as Hb.
    destruct (ord2ymd_in_cycle 0 ((n - 1) mod 146097)) as [[y0 m0] d0].
    injection Hymd as <- <- <-.
    apply day_check_spec in Hb as [Hb _]; [lia|].
    apply Z.mod_pos_bound. lia. }
  split; [|done]. split.
  - destruct (decide (n = 1)) as [->|Hne].
    + vm_compute in Hymd. injection Hymd as <- _ _. lia.
    + pose proof (ord2ymd_lt 1 n ltac:(lia)) as Hlt. rewrite Hymd in Hlt.
      assert (ord2ymd 1 = (1, 1, 1)) as Hone by (vm_compute; reflexivity).
      rewrite Hone in Hlt. apply lex_lt_spec in Hlt. lia.
  - destruct (decide (n = 3652059)) as [->|Hne].
    + vm_compute in Hymd. injection Hymd as <- _ _. lia.
    + pose proof (ord2ymd_lt n 3652059 ltac:(lia)) as Hlt. rewrite Hymd in Hlt.
      assert (ord2ymd 3652059 = (9999, 12, 31)) as Hmax by (vm_compute; reflexivity).
      rewrite Hmax in Hlt. apply lex_lt_spec in Hlt. lia.
Qed.

(** The strings of the dates are in the order of the dates. *)
Lemma date_string_lt a b :
  1 ≤ a → a < b → b ≤ 3652059 → str_lt (date_string a) (date_string b).
Proof.
  intros Ha Hab Hb. unfold date_string.
  pose proof (ord2ymd_lt a b Hab) as Hlt.
  pose proof (ord2ymd_bounds a) as Hba. pose proof (ord2ymd_bounds b) as Hbb.
  destruct (ord2ymd a) as [[y m] d]. destruct (ord2ymd b) as [[y' m'] d'].
  specialize (Hba y m d ltac:(lia) eq_refl).
  specialize (Hbb y' m' d' ltac:(lia) eq_refl).
  apply lex_lt_spec in Hlt as [Hy|[-> [Hm|[-> Hd]]]].
  - apply str_lt_app; [by rewrite !zero_pad_length|]. apply zero_pad4_lt; lia.
  - unfold str_lt. rewrite !compare_app_same.
    apply str_lt_app; [by rewrite !zero_pad_length|]. apply zero_pad2_lt; lia.
  - unfold str_lt. rewrite !compare_app_same. apply zero_pad2_lt; lia.
Qed.

Lemma date_string_inj a b :
  1 ≤ a ≤ 3652059 → 1 ≤ b ≤ 3652059 → date_string a = date_string b → a = b.
Proof.
  intros Ha Hb Heq.
  destruct (Z.lt_trichotomy a b) as [Hlt|[->|Hgt]]; [|done|]; exfalso.
  - eapply (str_lt_ne (date_string a)); [|exact Heq]. apply date_string_lt; lia.
  - eapply (str_lt_ne (date_string b)); [|symmetry; exact Heq].
    apply date_string_lt; lia.
Qed.





(** ** Rounding *)

Lemma up_IZR (n : Z) : up (IZR n) = n + 1.
Proof.
  symmetry. apply up_tech; [lra|]. rewrite plus_IZR. lra.
Qed.

Lemma round_half_even_IZR (n : Z) : Py.round_half_even (IZR n) = n.
Proof.
  unfold Py.round_half_even. rewrite up_IZR.
  replace (n + 1 - 1) with n by lia.
  destruct (Rlt_dec _ _) as [|Hn]; [done|]. exfalso. apply Hn. lra.
Qed.

(** A height with one decimal is the value [round(ht, 1)] gives it. *)
Lemma round1_tenths (n : Z) : Py.round1 (IZR n / 10) = (IZR n / 10)%R.
Proof.
  unfold Py.round1. replace (IZR n / 10 * 10)%R with (IZR n) by lra.
  by rewrite round_half_even_IZR.
Qed.

(** ** The interpolation rule *)

Section Interpolation.

Lemma total_seconds_pos d : 0 < d → (0 < total_seconds d)%R.
Proof. intros Hd. unfold total_seconds. apply IZR_lt. lia. Qed.

(** The quotient of two durations in seconds is their quotient in
    minutes. *)
Lemma float_div_seconds d e :
  0 < e →
  Py.float_div (total_seconds d) (total_seconds e) = Ok (IZR d / IZR e)%R.
Proof.
  intros He. unfold Py.float_div.
  pose proof (total_seconds_pos e He) as Hpos.
  destruct (Req_dec_T (total_seconds e) 0) as [Heq|_]; [lra|].
  f_equal. unfold total_seconds. rewrite !mult_IZR.
  assert (0 < IZR e)%R by (apply IZR_lt; lia).
  field. lra.
Qed.

Lemma tide_height_between_left (t t0 : Z) (h0 : R) (t1 : Z) (h1 : R) :
  t ≤ t0 → tide_height_between t t0 h0 t1 h1 = Ok h0.
Proof.
  intros Ht. unfold tide_height_between.
  destruct (Z.leb_spec t t0); [done|lia].
Qed.

Lemma tide_height_between_right (t t0 : Z) (h0 : R) (t1 : Z) (h1 : R) :
  t0 < t → t1 ≤ t → tide_height_between t t0 h0 t1 h1 = Ok h1.
Proof.
  intros Ht0 Ht1. unfold tide_height_between.
  destruct (Z.leb_spec t t0); [lia|].
  rewrite Z.geb_leb. destruct (Z.leb_spec t1 t); [done|lia].
Qed.

Lemma tide_height_between_inside (t t0 : Z) (h0 : R) (t1 : Z) (h1 : R) :
  t0 < t → t < t1 →
  tide_height_between t t0 h0 t1 h1 =
    Ok (h0 + (h1 - h0) * half_sine (IZR (t - t0) / IZR (t1 - t0)))%R.
Proof.
  intros Ht0 Ht1. unfold tide_height_between.
  destruct (Z.leb_spec t t0); [lia|].
  rewrite Z.geb_leb. destruct (Z.leb_spec t1 t); [lia|].
  rewrite float_div_seconds by lia. reflexivity.
Qed.

(** Whatever the five arguments, a height comes back. *)
Lemma tide_height_between_Ok (t t0 : Z) (h0 : R) (t1 : Z) (h1 : R) :
  ∃ v, tide_height_between t t0 h0 t1 h1 = Ok v.
Proof.
  destruct (Z_le_gt_dec t t0); [|destruct (Z_le_gt_dec t1 t)].
  - eexists. by apply tide_height_between_left.
  - eexists. apply tide_height_between_right; lia.
  - eexists. apply tide_height_between_inside; lia.
Qed.



Lemma half_sine_bounds x : (0 <= half_sine x <= 1)%R.
Proof.
  unfold half_sine.
  pose proof (SIN_bound (PI * x - PI / 2)). lra.
Qed.


End Interpolation.

Lemma tide_height_between_interpolate t e0 e1 :
  tide_height_between t (time e0) (height e0) (time e1) (height e1)
  = Ok (interpolate t e0 e1).
Proof.
  unfold interpolate.
  destruct (Z.leb_spec t (time e0)).
  - by apply tide_height_between_left.
  - destruct (Z.leb_spec (time e1) t).
    + by apply tide_height_between_right.
    + by apply tide_height_between_inside.
Qed.

Lemma interpolate_left t e0 e1 : t ≤ time e0 → interpolate t e0 e1 = height e0.
Proof. intros Ht. unfold interpolate. by destruct (Z.leb_spec t (time e0)); [|lia]. Qed.

(** C5 (amended).  For all points [(t0,h0)], [(t1,h1)] and every query [t],
    [tide_height_between] returns [h0] whenever [t <= t0], and returns [h1]
    whenever [t >= t1] and [t0 < t]: the left clamp is tested first, so on
    a tie [t0 = t1 = t] the height returned is [h0].  Consequently the
    height the scan records at a tick that coincides with [t0] is [h0]
    rounded to one decimal, and at a tick that coincides with [t1 > t0] it
    is [h1] rounded to one decimal. *)
Theorem tide_height_between_clamps (t t0 : Z) (h0 : R) (t1 : Z) (h1 : R) :
  (t ≤ t0 → tide_height_between t t0 h0 t1 h1 = Ok h0) ∧
  (t1 ≤ t → t0 < t → tide_height_between t t0 h0 t1 h1 = Ok h1) ∧
  (∀ rest d, t0 ≤ t1 →
     scan_pairs (Extremum t0 h0 :: Extremum t1 h1 :: rest) t0 d
     = set_hour (strftime_date t0) (strftime_hour t0) (Py.round1 h0)
                (init_day (strftime_date t0) d)) ∧
  (∀ rest d, t0 < t1 →
     scan_pairs (Extremum t0 h0 :: Extremum t1 h1 :: rest) t1 d
     = set_hour (strftime_date t1) (strftime_hour t1) (Py.round1 h1)
                (init_day (strftime_date t1) d)).
Proof.
  split_and!.
  - apply tide_height_between_left.
  - intros. by apply tide_height_between_right.
  - intros rest d Hle. cbn [scan_pairs time height].
    rewrite Z.leb_refl. destruct (Z.leb_spec t0 t1); [|lia]. cbn [andb].
    by rewrite tide_height_between_left.
  - intros rest d Hlt. cbn [scan_pairs time height].
    rewrite Z.leb_refl. destruct (Z.leb_spec t0 t1); [|lia]. cbn [andb].
    by rewrite tide_height_between_right by lia.
Qed.

(** C5, as stated, fails on a tie: at [t = t0 = t1] (10:00 on 2025-12-01)
    with heights 1 and 2, [t >= t1] holds and the height returned is
    [h0 = 1], not [h1 = 2]. *)
Lemma tide_height_between_tie :
  at_time 2025 12 1 10 0 >= at_time 2025 12 1 10 0 ∧
  tide_height_between (at_time 2025 12 1 10 0)
    (at_time 2025 12 1 10 0) 1 (at_time 2025 12 1 10 0) 2 = Ok 1%R ∧
  (1 ≠ 2)%R.
Proof.
  split_and!; [lia| |lra]. by apply tide_height_between_left.
Qed.

(** C6.  For [t0 < t < t1], [tide_height_between t t0 h0 t1 h1] is
    [h0 + (h1 - h0) * s] with [x = (t - t0) / (t1 - t0)] and
    [s = 0.5 * (1 + sin(pi * x - pi / 2))]. *)
Theorem tide_height_between_half_sine (t t0 : Z) (h0 : R) (t1 : Z) (h1 : R) :
  t0 < t → t < t1 →
  tide_height_between t t0 h0 t1 h1 =
    Ok (let x := IZR (t - t0) / IZR (t1 - t0) in
        let s := 0.5 * (1 + sin (PI * x - PI / 2)) in
        h0 + (h1 - h0) * s)%R.
Proof. apply tide_height_between_inside. Qed.
Lemma tide_height_between_half_sine_witness :
  tide_height_between 30 0 1 60 2 =
    Ok (let x := IZR (30 - 0) / IZR (60 - 0) in
        let s := 0.5 * (1 + sin (PI * x - PI / 2)) in
        1 + (2 - 1) * s)%R.
Proof. apply (tide_height_between_half_sine 30 0 1 60 2); lia. Defined.


(** C10.  [tide_height_between] returns a height for all arguments, ties
    [t0 = t1] included: outside [t0 < t < t1] one of the two clamps
    returns [h0] or [h1], and inside it the divisor, the length of the
    interval in seconds, is positive, so the division returns. *)
Theorem tide_height_between_total (t t0 : Z) (h0 : R) (t1 : Z) (h1 : R) :
  (∃ v, tide_height_between t t0 h0 t1 h1 = Ok v) ∧
  (t0 = t1 →
     tide_height_between t t0 h0 t1 h1 = Ok h0 ∨
     tide_height_between t t0 h0 t1 h1 = Ok h1) ∧
  (¬ (t0 < t < t1) →
     tide_height_between t t0 h0 t1 h1 = Ok h0 ∨
     tide_height_between t t0 h0 t1 h1 = Ok h1) ∧
  (t0 < t < t1 →
     (0 < total_seconds (t1 - t0))%R ∧
     ∃ x, Py.float_div (total_seconds (t - t0)) (total_seconds (t1 - t0)) = Ok x).
Proof.
  assert (¬ (t0 < t < t1) →
          tide_height_between t t0 h0 t1 h1 = Ok h0 ∨
          tide_height_between t t0 h0 t1 h1 = Ok h1) as Hclamp.
  { intros Hout. destruct (Z_le_gt_dec t t0).
    - left. by apply tide_height_between_left.
    - right. apply tide_height_between_right; lia. }
  split_and!.
  - apply tide_height_between_Ok.
  - intros ->. apply Hclamp. lia.
  - done.
  - intros [H0 H1]. split; [apply total_seconds_pos; lia|].
    eexists. apply float_div_seconds. lia.
Qed.
(** ** The extrema loader *)











(** The sort puts the extrema in ascending order of time. *)
Lemma insert_by_time_sorted e l :
  time_sorted l → time_sorted (insert_by_time e l).
Proof.
  unfold time_sorted. induction 1 as [|x l Hl IH Hx]; cbn [insert_by_time].
  - repeat constructor.
  - destruct (Z.leb_spec (time e) (time x)) as [Hle|Hgt].
    + constructor; [by constructor|]. constructor; [done|].
      eapply Forall_impl; [exact Hx|]. intros y Hy. cbn in Hy. lia.
    + constructor; [done|].
      assert (∀ l', Forall (fun b => time x ≤ time b) l' →
                Forall (fun b => time x ≤ time b) (insert_by_time e l')) as Hins.
      { induction l' as [|y l' IH']; intros Hall; cbn [insert_by_time].
        - repeat constructor. lia.
        - apply Forall_cons in Hall as [Hy Hall].
          destruct (time e <=? time y); repeat constructor; try done; try lia.
          by apply IH'. }
      by apply Hins.
Qed.

Lemma sort_by_time_sorted l : time_sorted (sort_by_time l).
Proof.
  induction l as [|e l IH]; [constructor|]. by apply insert_by_time_sorted.
Qed.

(** What the loader returns is sorted. *)
Lemma parse_csv_to_extrema_sorted rows extrema :
  parse_csv_to_extrema rows = Ok extrema → time_sorted extrema.
Proof.
  unfold parse_csv_to_extrema.
  destruct (for_each parse_row rows []) as [l|]; [|done].
  intros [= <-]. apply sort_by_time_sorted.
Qed.

(** The row of the docstring gives its four extrema. *)
Lemma parse_docstring_row :
  parse_csv_to_extrema [docstring_row] = Ok docstring_extrema.
Proof. vm_compute. reflexivity. Qed.



(** ** The hourly reconstructor *)

(** *** Ticks and keys *)

Lemma valid_datetime_between lo hi t :
  valid_datetime lo → valid_datetime hi → lo ≤ t ≤ hi → valid_datetime t.
Proof. unfold valid_datetime. lia. Qed.

(** The date and hour strings of a tick determine it. *)
Lemma tick_keys_inj t u :
  hour_tick t → hour_tick u → valid_datetime t → valid_datetime u →
  strftime_date t = strftime_date u → strftime_hour t = strftime_hour u →
  t = u.
Proof.
  unfold hour_tick, valid_datetime, strftime_date, strftime_hour.
  intros Ht Hu Hvt Hvu Hd Hh.
  apply date_string_inj in Hd; [|zlia..].
  apply hour_string_inj in Hh; [|zlia..].
  zlia.
Qed.


(** The hour strings of a day. *)
Lemma strftime_hour_range t : ∃ h, 0 ≤ h < 24 ∧ strftime_hour t = hour_string h.
Proof. exists (t mod 1440 / 60). split; [zlia|done]. Qed.

Lemma hour_tick_add_hour t : hour_tick t → hour_tick (add_hour t).
Proof. unfold hour_tick, add_hour. zlia. Qed.

Lemma hour_tick_range_start e : hour_tick (range_start e).
Proof. unfold hour_tick, range_start. zlia. Qed.


Lemma replace_range_start e : replace (time e) 0 0 = Ok (range_start e).
Proof. unfold replace, range_start. cbn. f_equal. lia. Qed.

Lemma replace_range_end e : replace (time e) 23 0 = Ok (range_end e).
Proof. unfold replace, range_end. cbn. f_equal. lia. Qed.

Lemma range_start_valid e : valid_datetime (time e) → valid_datetime (range_start e).
Proof. unfold valid_datetime, range_start. zlia. Qed.

Lemma range_end_valid e : valid_datetime (time e) → valid_datetime (range_end e).
Proof. unfold valid_datetime, range_end. zlia. Qed.

(** *** One tick *)

Lemma set_hour_init_day t v d :
  set_hour (strftime_date t) (strftime_hour t) v (init_day (strftime_date t) d)
  = Ok (record_sample t v d).
Proof.
  unfold set_hour, init_day, record_sample, getitem.
  destruct (d !! strftime_date t) as [day|] eqn:Hd; simpl.
  - rewrite Hd. reflexivity.
  - rewrite lookup_insert_eq. simpl. by rewrite insert_insert_eq.
Qed.

Lemma scan_pairs_spec extrema t d :
  scan_pairs extrema t d
  = Ok (match sample extrema t with
        | Some v => record_sample t v d
        | None => d
        end).
Proof.
  unfold sample.
  induction extrema as [|e0 [|e1 rest] IH]; [done..|].
  cbn [scan_pairs bracket].
  destruct ((time e0 <=? t) && (t <=? time e1)) eqn:Hb.
  - rewrite tide_height_between_interpolate. cbn.
    apply set_hour_init_day.
  - apply IH.
Qed.

Lemma lookup2_record_sample t v d ks hs :
  lookup2 (record_sample t v d) ks hs
  = if decide (ks = strftime_date t ∧ hs = strftime_hour t) then Some v
    else lookup2 d ks hs.
Proof.
  unfold lookup2, record_sample.
  destruct (decide (ks = strftime_date t)) as [->|Hdk].
  - rewrite lookup_insert_eq. simpl.
    destruct (decide (hs = strftime_hour t)) as [->|Hh].
    + rewrite lookup_insert_eq. by rewrite decide_True.
    + rewrite lookup_insert_ne by done.
      rewrite decide_False by tauto.
      by destruct (d !! strftime_date t).
  - rewrite lookup_insert_ne by done. rewrite decide_False by tauto. done.
Qed.

Lemma entry_record_sample t v d u :
  hour_tick t → hour_tick u → valid_datetime t → valid_datetime u →
  entry (record_sample t v d) u = if decide (u = t) then Some v else entry d u.
Proof.
  intros Ht Hu Hvt Hvu. unfold entry. rewrite lookup2_record_sample.
  destruct (decide (u = t)) as [->|Hne].
  - by rewrite decide_True.
  - rewrite decide_False; [done|]. intros [Hd Hh]. apply Hne.
    by apply tick_keys_inj.
Qed.

Lemma lookup2_empty ks hs : lookup2 ∅ ks hs = None.
Proof. unfold lookup2. by rewrite lookup_empty. Qed.

Lemma days_wf_empty lo hi : days_wf lo hi ∅.
Proof. intros dk day. by rewrite lookup_empty. Qed.

Lemma days_wf_record_sample lo hi t v d :
  hour_tick t → lo ≤ t ≤ hi →
  days_wf lo hi d → days_wf lo hi (record_sample t v d).
Proof.
  intros Ht Hr Hwf ks day. unfold record_sample.
  destruct (decide (ks = strftime_date t)) as [->|Hdk].
  - rewrite lookup_insert_eq. intros [= <-]. unfold day_wf. cbn [Date hours].
    assert (is_Some (<[strftime_hour t:=v]>
              (hours (default {| Date := strftime_date t; hours := ∅ |}
                              (d !! strftime_date t))) !! strftime_hour t))
      as Hnew by (rewrite lookup_insert_eq; by eexists).
    destruct (d !! strftime_date t) as [day'|] eqn:Hd; simpl in *.
    + destruct (Hwf _ _ Hd) as (HD & _ & Hprov).
      split_and!; [done|by eexists|].
      intros hs. destruct (decide (hs = strftime_hour t)) as [->|Hne].
      * intros _. exists t. by rewrite HD.
      * rewrite lookup_insert_ne by done. apply Hprov.
    + split_and!; [done|by eexists|].
      intros hs. destruct (decide (hs = strftime_hour t)) as [->|Hne].
      * intros _. by exists t.
      * rewrite lookup_insert_ne by done. cbn [hours].
        rewrite lookup_empty. by intros [].
  - rewrite lookup_insert_ne by done. apply Hwf.
Qed.

(** *** The loop *)

Lemma hourly_loop_step extrema end_ t d :
  hourly_loop extrema end_ t d =
    if decide (t ≤ end_) then
      match scan_pairs extrema t d with
      | Ok d' => hourly_loop extrema end_ (add_hour t) d'
      | Raise e => Raise e
      end
    else Ok d.
Proof.
  simp hourly_loop.
  destruct (Z_le_gt_dec t end_) as [Hle|Hgt]; simpl.
  - destruct (decide (t ≤ end_)); [|lia].
    destruct (scan_pairs extrema t d); reflexivity.
  - destruct (decide (t ≤ end_)); [lia|]. reflexivity.
Qed.

(** What the loop leaves in the dictionary: the samples of the ticks from
    [t] to [end_], over what it held. *)
Lemma hourly_loop_spec extrema lo end_ (n : nat) : ∀ t d,
  (Z.to_nat (end_ - t + 1) ≤ n)%nat → hour_tick t → lo ≤ t →
  days_wf lo end_ d →
  ∃ d', hourly_loop extrema end_ t d = Ok d' ∧ days_wf lo end_ d' ∧
    (valid_datetime lo → valid_datetime end_ →
     ∀ u, hour_tick u → valid_datetime u →
       entry d' u =
         match (if decide (t ≤ u ≤ end_) then sample extrema u else None) with
         | Some v => Some v
         | None => entry d u
         end).
Proof.
  induction n as [|n IH]; intros t d Hn Ht Hlo Hwf.
  - rewrite hourly_loop_step. rewrite decide_False by lia.
    exists d. split_and!; [done..|]. intros _ _ u _ _.
    rewrite decide_False by lia. done.
  - rewrite hourly_loop_step. destruct (decide (t ≤ end_)) as [Hle|Hgt].
    + rewrite scan_pairs_spec.
      set (d1 := match sample extrema t with
                 | Some v => record_sample t v d | None => d end).
      assert (days_wf lo end_ d1) as Hwf1.
      { unfold d1. destruct (sample extrema t); [|done].
        by apply days_wf_record_sample. }
      destruct (IH (add_hour t) d1) as (d' & Hrun & Hwf' & Hd');
        [unfold add_hour; lia|by apply hour_tick_add_hour
        |unfold add_hour; lia|done|].
      exists d'. split_and!; [done..|]. intros Hvlo Hvend u Hu Hvu.
      rewrite (Hd' Hvlo Hvend u Hu Hvu).
      assert (valid_datetime t) as Hvt
        by (by apply (valid_datetime_between lo end_)).
      assert (entry d1 u =
                if decide (u = t)
                then match sample extrema t with
                     | Some v => Some v | None => entry d u end
                else entry d u) as ->.
      { unfold d1. destruct (sample extrema t).
        - by apply entry_record_sample.
        - by destruct (decide _). }
      destruct (decide (u = t)) as [->|Hne].
      * rewrite (decide_False (P := add_hour t ≤ _ ≤ _))
          by (unfold add_hour; lia).
        rewrite decide_True by lia. done.
      * destruct (decide (add_hour t ≤ u ≤ end_)) as [Hr|Hout].
        { rewrite decide_True by (unfold add_hour in Hr; lia). done. }
        destruct (decide (t ≤ u ≤ end_)) as [Hr|]; [|done].
        exfalso. apply Hout. unfold hour_tick, add_hour in *. zlia.
    + exists d. split_and!; [done..|]. intros _ _ u _ _.
      rewrite decide_False by lia. done.
Qed.

(** *** The list returned *)

Lemma sorted_keys_spec (d : gmap string DailyRecord) :
  StronglySorted str_lt (sorted_keys d) ∧
  ∀ k, k ∈ sorted_keys d ↔ is_Some (d !! k).
Proof.
  unfold sorted_keys.
  pose proof (merge_sort_Permutation String.le (map_to_list d).*1) as Hperm.
  split.
  - apply StronglySorted_le_lt.
    + apply (StronglySorted_merge_sort _).
    + rewrite Hperm. apply NoDup_fst_map_to_list.
  - intros k. rewrite Hperm. rewrite list_elem_of_fmap. split.
    + intros ([k' day] & -> & Hin). apply elem_of_map_to_list in Hin.
      by eexists.
    + intros [day Hday]. exists (k, day). split; [done|].
      by apply elem_of_map_to_list.
Qed.

Lemma filter_Date_none (out : list DailyRecord) (ks : string) :
  (∀ day, day ∈ out → Date day ≠ ks) →
  filter (fun day' => Date day' = ks) out = [].
Proof.
  induction out as [|day out IH]; intros Hnone; [done|].
  rewrite filter_cons_False.
  - apply IH. intros day' Hin. apply Hnone. by right.
  - apply Hnone. by left.
Qed.

(** In a list with distinct dates, the days filed under the date of a
    given day are that day alone. *)
Lemma filter_Date_unique (out : list DailyRecord) (day : DailyRecord) :
  NoDup (Date <$> out) → day ∈ out →
  filter (fun day' => Date day' = Date day) out = [day].
Proof.
  induction out as [|day' out IH]; intros Hnd Hin; [by apply elem_of_nil in Hin|].
  rewrite fmap_cons in Hnd. apply NoDup_cons in Hnd as [Hnotin Hnd].
  rewrite filter_cons. apply elem_of_cons in Hin as [<-|Hin].
  - rewrite decide_True by done. f_equal.
    apply filter_Date_none. intros day'' Hin' Heq.
    apply Hnotin. rewrite <- Heq. by apply list_elem_of_fmap_2.
  - rewrite decide_False; [by apply IH|].
    intros Heq. apply Hnotin. rewrite Heq. by apply list_elem_of_fmap_2.
Qed.


Lemma elem_of_samples_at (out : list DailyRecord) t v :
  v ∈ samples_at out t ↔
  ∃ day, day ∈ out ∧ Date day = strftime_date t ∧
         hours day !! strftime_hour t = Some v.
Proof.
  unfold samples_at. rewrite list_elem_of_omap. split.
  - intros (day & Hin & Hv). apply list_elem_of_filter in Hin as [? ?]. by exists day.
  - intros (day & Hin & HD & Hv). exists day. split; [|done].
    by apply list_elem_of_filter.
Qed.


(** What [generate_hourly_tides] returns for a sequence that starts with
    [e0] and ends with [en]. *)
Lemma generate_hourly_tides_spec extrema e0 en :
  head extrema = Some e0 → last extrema = Some en →
  ∃ out, generate_hourly_tides extrema = Ok out ∧
    StronglySorted str_lt (Date <$> out) ∧
    (∀ day, day ∈ out → day_wf (range_start e0) (range_end en) day) ∧
    (valid_datetime (time e0) → valid_datetime (time en) →
     ∀ t, hour_tick t → valid_datetime t →
       samples_at out t =
         match (if decide (range_start e0 ≤ t ≤ range_end en)
                then sample extrema t else None) with
         | Some v => [v]
         | None => []
         end).
Proof.
  intros Hhd Hlast. unfold generate_hourly_tides.
  destruct extrema as [|e0' rest]; [done|]. injection Hhd as ->.
  cbn [first_item mbind result_bind].
  rewrite replace_range_start. cbn [mbind result_bind].
  unfold last_item. rewrite Hlast. cbn [mbind result_bind].
  rewrite replace_range_end. cbn [mbind result_bind].
  set (extrema := e0 :: rest) in *.
  destruct (hourly_loop_spec extrema (range_start e0) (range_end en)
              (Z.to_nat (range_end en - range_start e0 + 1))
              (range_start e0) ∅) as (d & -> & Hwf & Hd).
  { done. }
  { apply hour_tick_range_start. }
  { done. }
  { apply days_wf_empty. }
  cbn [mbind result_bind].
  destruct (sorted_keys_spec d) as [Hsorted Hkeys].
  destruct (comprehension_getitem d (sorted_keys d)) as (out & -> & Hall).
  { intros k. apply Hkeys. }
  exists out. split; [done|].
  assert (Date <$> out = sorted_keys d) as HDate.
  { clear -Hall Hwf. induction Hall as [|k day keys out Hk _ IH]; [done|].
    rewrite fmap_cons, IH. f_equal. by apply Hwf in Hk as [? _]. }
  assert (∀ day, day ∈ out ↔ d !! Date day = Some day) as Hmem.
  { intros day. split.
    - intros Hin. clear -Hall Hwf Hin.
      induction Hall as [|k day' keys out Hk _ IH]; [by apply elem_of_nil in Hin|].
      apply elem_of_cons in Hin as [->|Hin]; [|by apply IH].
      by destruct (Hwf _ _ Hk) as [-> _].
    - intros Hday.
      assert (Date day ∈ sorted_keys d) as Hin by (apply Hkeys; by eexists).
      clear -Hall Hin Hday.
      induction Hall as [|k day' keys out Hk _ IH]; [by apply elem_of_nil in Hin|].
      apply elem_of_cons in Hin as [<-|Hin].
      + rewrite Hday in Hk. injection Hk as <-. by left.
      + right. by apply IH. }
  split_and!.
  - by rewrite HDate.
  - intros day Hin. apply Hmem in Hin. by apply Hwf in Hin as [_ ?].
  - intros Hv0 Hvn t Ht Hvt. unfold samples_at.
    specialize (Hd (range_start_valid _ Hv0) (range_end_valid _ Hvn) t Ht Hvt).
    unfold entry in Hd. rewrite lookup2_empty in Hd. unfold lookup2 in Hd.
    destruct (d !! strftime_date t) as [day|] eqn:Hday.
    + assert (Date day = strftime_date t) as HD by (by apply Hwf in Hday as [? _]).
      assert (filter (fun day' => Date day' = strftime_date t) out = [day]) as ->.
      { rewrite <- HD. apply filter_Date_unique.
        - rewrite HDate. by apply StronglySorted_lt_NoDup.
        - apply Hmem. by rewrite HD. }
      cbn [omap list_omap]. cbn [mbind option_bind] in Hd. rewrite Hd.
      destruct (decide (range_start e0 ≤ t ≤ range_end en)); [|done].
      by destruct (sample extrema t).
    + rewrite filter_Date_none.
      * cbn [omap list_omap]. cbn [mbind option_bind] in Hd.
        destruct (decide (range_start e0 ≤ t ≤ range_end en)); [|done].
        by destruct (sample extrema t).
      * intros day Hin Heq. apply Hmem in Hin. rewrite Heq in Hin. congruence.
Qed.

(** *** Bracketing pairs of a sorted sequence *)

Lemma bracket_Some extrema t a b :
  bracket extrema t = Some (a, b) →
  time a ≤ t ≤ time b ∧ a ∈ extrema ∧ b ∈ extrema.
Proof.
  induction extrema as [|e0 [|e1 rest] IH]; [done..|].
  cbn [bracket].
  destruct ((time e0 <=? t) && (t <=? time e1)) eqn:Hb.
  - intros [= <- <-]. apply andb_true_iff in Hb as [H0 H1].
    apply Z.leb_le in H0, H1.
    split_and!; [lia|lia|by left|by right; left].
  - intros Hr. destruct (IH Hr) as (? & ? & ?).
    split_and!; [lia|lia|by right|by right].
Qed.




(** *** Sample data *)



Lemma three_day_extrema_sorted : time_sorted three_day_extrema.
Proof. repeat constructor; vm_compute; discriminate. Qed.

Lemma three_day_extrema_valid :
  Forall (fun e => valid_datetime (time e)) three_day_extrema.
Proof. repeat constructor; vm_compute; discriminate. Qed.

(** *** The claims *)

(** C1.  The specification asks for an empty result on an empty sequence
    of extrema; [generate_hourly_tides] instead raises [IndexError] at
    [extrema[0]], and so does [main] on an input without rows. *)
Theorem generate_hourly_tides_empty :
  generate_hourly_tides [] = Raise IndexError ∧ main [] = Raise IndexError.
Proof. split; reflexivity. Qed.





(** ** The output validator *)

Lemma float_le_spec a b : float_le a b = true ↔ (a <= b)%R.
Proof. unfold float_le. by destruct (Rle_dec a b). Qed.

Lemma unusual_spec level : unusual level = true ↔ ¬ (-0.5 <= level <= 4)%R.
Proof.
  unfold unusual. rewrite negb_true_iff, andb_false_iff.
  rewrite <- !not_true_iff_false, !float_le_spec. split; [tauto|].
  intros Hn. destruct (Rle_dec (-0.5) level); [|by left].
  right. intros ?. by apply Hn.
Qed.

Lemma elem_of_validate_day day f :
  f ∈ validate_day day ↔
    (size (hours day) ≠ 24%nat ∧ f = OnlyHours (Date day) (size (hours day))) ∨
    (∃ h level, hours day !! h = Some level ∧ ¬ (-0.5 <= level <= 4)%R ∧
                f = UnusualLevel (Date day) h level).
Proof.
  unfold validate_day. rewrite elem_of_app.
  assert (f ∈ (if decide (size (hours day) ≠ 24%nat)
               then [OnlyHours (Date day) (size (hours day))] else [])
          ↔ size (hours day) ≠ 24%nat ∧
            f = OnlyHours (Date day) (size (hours day))) as ->.
  { destruct (decide _) as [Hne|Heq].
    - rewrite list_elem_of_singleton. tauto.
    - rewrite elem_of_nil. tauto. }
  rewrite list_elem_of_In, in_flat_map.
  split; (intros [Hl|Hr]; [by left|right]).
  - destruct Hr as ([h level] & Hin & Hf). apply list_elem_of_In in Hin, Hf.
    apply elem_of_map_to_list in Hin.
    destruct (unusual level) eqn:Hu; [|by apply elem_of_nil in Hf].
    apply list_elem_of_singleton in Hf. apply unusual_spec in Hu.
    by exists h, level.
  - destruct Hr as (h & level & Hl & Hu & ->). exists (h, level). split.
    + apply list_elem_of_In. by apply elem_of_map_to_list.
    + apply unusual_spec in Hu. rewrite Hu. by left.
Qed.

Lemma elem_of_validate_output (daily_tides : list DailyRecord) f :
  f ∈ (validate_output daily_tides).1 ↔
    (∃ day, day ∈ daily_tides ∧ size (hours day) ≠ 24%nat ∧
            f = OnlyHours (Date day) (size (hours day))) ∨
    (∃ day h level, day ∈ daily_tides ∧ hours day !! h = Some level ∧
            ¬ (-0.5 <= level <= 4)%R ∧ f = UnusualLevel (Date day) h level).
Proof.
  cbn [validate_output fst].
  rewrite list_elem_of_In, in_flat_map. split.
  - intros (day & Hin & Hf). apply list_elem_of_In in Hin, Hf.
    apply elem_of_validate_day in Hf as [[? ?]|(h & level & ? & ? & ?)].
    + left. by exists day.
    + right. by exists day, h, level.
  - intros [(day & Hin & Hne & ->)|(day & h & level & Hin & Hl & Hu & ->)].
    + exists day. split; [by apply list_elem_of_In|].
      apply list_elem_of_In, elem_of_validate_day. by left.
    + exists day. split; [by apply list_elem_of_In|].
      apply list_elem_of_In, elem_of_validate_day. right. by exists h, level.
Qed.

(** C9.  [validate_output] leaves the list it is passed as it was; its
    issues are exactly one for every day whose number of hour entries is
    not 24 and one for every height outside [[-0.5, 4]]; and [main]
    writes the list [generate_hourly_tides] returned whatever the issues
    are. *)
Theorem validate_output_diagnostic (daily_tides : list DailyRecord) :
  (validate_output daily_tides).2 = daily_tides ∧
  (∀ f, f ∈ (validate_output daily_tides).1 ↔
     (∃ day, day ∈ daily_tides ∧ size (hours day) ≠ 24%nat ∧
             f = OnlyHours (Date day) (size (hours day))) ∨
     (∃ day h level, day ∈ daily_tides ∧ hours day !! h = Some level ∧
             ¬ (-0.5 <= level <= 4)%R ∧ f = UnusualLevel (Date day) h level)) ∧
  (∀ rows extrema,
     parse_csv_to_extrema rows = Ok extrema →
     generate_hourly_tides extrema = Ok daily_tides →
     main rows = Ok (daily_tides, (validate_output daily_tides).1)).
Proof.
  split_and!.
  - reflexivity.
  - apply elem_of_validate_output.
  - intros rows extrema Hparse Hgen. unfold main. rewrite Hparse.
    cbn [mbind result_bind]. by rewrite Hgen.
Qed.
(** The height 10.0 of the specification is reported and kept: the run
    returns, the output holds 10.0 at 06:00, and the issues name it. *)
Lemma main_reports_and_keeps_implausible_height :
  ∃ out issues,
    main [implausible_row] = Ok (out, issues) ∧
    samples_at out (at_time 2025 12 1 6 0) = [10%R] ∧
    UnusualLevel "2025-12-01" "06:00" 10 ∈ issues.
Proof.
  set (e0 := Extremum (at_time 2025 12 1 6 0) (100 / 10)).
  set (e1 := Extremum (at_time 2025 12 1 12 0) (10 / 10)).
  assert (parse_csv_to_extrema [implausible_row] = Ok [e0; e1]) as Hparse
    by (vm_compute; reflexivity).
  destruct (generate_hourly_tides_spec [e0; e1] e0 e1)
    as (out & Hrun & _ & _ & Hsamples); [reflexivity..|].
  assert (samples_at out (at_time 2025 12 1 6 0) = [10%R]) as Hs.
  { rewrite Hsamples;
      [|vm_compute; split; [discriminate|reflexivity]..|reflexivity
       |vm_compute; split; [discriminate|reflexivity]].
    destruct (decide _) as [_|Hout];
      [|exfalso; apply Hout; vm_compute; split; discriminate].
    assert (bracket [e0; e1] (at_time 2025 12 1 6 0) = Some (e0, e1)) as Hb
      by (vm_compute; reflexivity).
    unfold sample. rewrite Hb. cbn [fmap option_fmap option_map fst snd].
    rewrite interpolate_left by reflexivity. cbn [height e0].
    rewrite round1_tenths. f_equal. lra. }
  exists out, (validate_output out).1. split_and!; [|done|].
  - unfold main. rewrite Hparse. cbn [mbind result_bind]. by rewrite Hrun.
  - assert (10%R ∈ samples_at out (at_time 2025 12 1 6 0)) as Hin
      by (rewrite Hs; by left).
    apply elem_of_samples_at in Hin as (day & Hin & HD & Hv).
    assert (strftime_hour (at_time 2025 12 1 6 0) = "06:00") as Hh
      by (vm_compute; reflexivity).
    assert (strftime_date (at_time 2025 12 1 6 0) = "2025-12-01") as Hd
      by (vm_compute; reflexivity).
    rewrite Hh in Hv. rewrite Hd in HD.
    apply elem_of_validate_output. right.
    exists day, "06:00", 10%R. split_and!; [exact Hin|exact Hv|lra|].
    by rewrite HD.
Qed.

(** * Part IV: further properties of the code *)

(** ** More on the interpolation rule *)


Lemma interpolate_bounds t e0 e1 :
  (Rmin (height e0) (height e1) <= interpolate t e0 e1
   <= Rmax (height e0) (height e1))%R.
Proof.
  pose proof (Rmin_l (height e0) (height e1)).
  pose proof (Rmin_r (height e0) (height e1)).
  pose proof (Rmax_l (height e0) (height e1)).
  pose proof (Rmax_r (height e0) (height e1)).
  unfold interpolate.
  destruct (Z.leb_spec t (time e0)); [lra|].
  destruct (Z.leb_spec (time e1) t); [lra|].
  pose proof (half_sine_bounds (IZR (t - time e0) / IZR (time e1 - time e0))).
  nra.
Qed.






(** ** More on loops *)

Lemma for_each_app {A S} (body : S → A → result S) l1 l2 s :
  for_each body (l1 ++ l2) s = for_each body l1 s ≫= for_each body l2.
Proof.
  revert s. induction l1 as [|a l1 IH]; intros s; [done|].
  cbn [app for_each]. destruct (body s a) as [s'|e]; [apply IH|done].
Qed.


(** ** More on the extrema loader *)

(** *** The sort *)

Lemma insert_by_time_Permutation e l : insert_by_time e l ≡ₚ e :: l.
Proof.
  induction l as [|x l IH]; [done|]. cbn [insert_by_time].
  destruct (time e <=? time x); [done|]. rewrite IH. apply Permutation_swap.
Qed.

Lemma insert_by_time_filter e l (tau : Z) :
  filter (fun x => time x = tau) (insert_by_time e l)
  = filter (fun x => time x = tau) (e :: l).
Proof.
  induction l as [|x l IH]; [done|]. cbn [insert_by_time].
  destruct (Z.leb_spec (time e) (time x)) as [Hle|Hgt]; [done|].
  rewrite filter_cons, IH, !filter_cons.
  destruct (decide (time x = tau)), (decide (time e = tau)); try done. lia.
Qed.

Lemma sort_by_time_Permutation l : sort_by_time l ≡ₚ l.
Proof.
  induction l as [|e l IH]; [done|]. cbn [sort_by_time foldr].
  rewrite insert_by_time_Permutation. by constructor.
Qed.

(** X1.  [extrema.sort(key=lambda x: x['time'])] sorts: its result is in
    ascending order of time, holds the same extrema, and keeps extrema of
    the same time in the order they had. *)
Theorem sort_by_time_stable (l : list extremum) :
  time_sorted (sort_by_time l) ∧
  sort_by_time l ≡ₚ l ∧
  ∀ tau : Z, filter (fun e => time e = tau) (sort_by_time l)
             = filter (fun e => time e = tau) l.
Proof.
  split_and!.
  - apply sort_by_time_sorted.
  - apply sort_by_time_Permutation.
  - intros tau. induction l as [|e l IH]; [done|]. cbn [sort_by_time foldr].
    rewrite insert_by_time_filter, !filter_cons.
    fold (sort_by_time l). by rewrite IH.
Qed.

(** *** Rows *)

Lemma parse_slots_filled r date_str extrema i :
  parse_slots r date_str extrema i =
    if slot_filled r i
    then parse_slot date_str (slot_time r i) (slot_height r i)
           ≫= fun e => Ok (extrema ++ [e])
    else Ok extrema.
Proof. reflexivity. Qed.

Lemma parse_row_example extrema (r : row) date_str :
  r !! "Date" = Some date_str → String.prefix "EXAMPLE" date_str = true →
  parse_row extrema r = Ok extrema.
Proof.
  intros Hd Hex. unfold parse_row. rewrite (getitem_Some _ _ _ Hd).
  cbn [mbind result_bind]. by rewrite Hex.
Qed.





(** X3.  Rows whose date starts with [EXAMPLE] are skipped whatever their
    other fields hold: the run is the one on the file without them. *)
Theorem parse_csv_to_extrema_skips_example (rows1 rows2 : list row) (r : row)
    (date_str : string) :
  r !! "Date" = Some date_str → String.prefix "EXAMPLE" date_str = true →
  parse_csv_to_extrema (rows1 ++ r :: rows2) = parse_csv_to_extrema (rows1 ++ rows2).
Proof.
  intros Hd Hex. unfold parse_csv_to_extrema. rewrite !for_each_app.
  destruct (for_each parse_row rows1 []) as [parsed|]; [|done].
  cbn [mbind result_bind for_each].
  by rewrite (parse_row_example _ _ _ Hd Hex).
Qed.

Lemma parse_csv_to_extrema_skips_example_witness :
  parse_csv_to_extrema
    ([docstring_row]
     ++ csv_row "EXAMPLE-2025-12-01" "25AB" "x" "" "" "" "" "" "" :: [])
  = parse_csv_to_extrema ([docstring_row] ++ []).
Proof.
  apply (parse_csv_to_extrema_skips_example [docstring_row] []
           (csv_row "EXAMPLE-2025-12-01" "25AB" "x" "" "" "" "" "" "")
           "EXAMPLE-2025-12-01"); reflexivity.
Defined.

Lemma parse_slots_length r date_str l : ∀ extrema extrema',
  for_each (parse_slots r date_str) l extrema = Ok extrema' →
  length extrema' = (length extrema
                     + length (filter (fun i => slot_filled r i = true) l))%nat.
Proof.
  induction l as [|i l IH]; intros extrema extrema' Hrun.
  - cbn in Hrun. injection Hrun as <-. cbn. lia.
  - cbn [for_each] in Hrun. rewrite parse_slots_filled in Hrun.
    rewrite filter_cons. destruct (slot_filled r i) eqn:Hf.
    + destruct (parse_slot _ _ _) as [e|]; [|done].
      cbn [mbind result_bind] in Hrun. apply IH in Hrun.
      rewrite Hrun, length_app. destruct (decide _); [|done]. cbn. lia.
    + cbn [mbind result_bind] in Hrun. apply IH in Hrun.
      rewrite Hrun. by destruct (decide _).
Qed.

Lemma parse_row_length extrema extrema' (r : row) :
  parse_row extrema r = Ok extrema' →
  length extrema' = (length extrema + filled_slots r)%nat.
Proof.
  unfold parse_row, getitem, filled_slots. intros Hrow.
  destruct (r !! "Date") as [date_str|]; [|done].
  cbn [mbind result_bind] in Hrow.
  destruct (String.prefix "EXAMPLE" date_str).
  - injection Hrow as <-. lia.
  - by apply parse_slots_length in Hrow.
Qed.

Lemma parse_rows_length rows : ∀ extrema extrema',
  for_each parse_row rows extrema = Ok extrema' →
  length extrema' = (length extrema + sum_list (filled_slots <$> rows))%nat.
Proof.
  induction rows as [|r rows IH]; intros extrema extrema' Hrun.
  - cbn in Hrun. injection Hrun as <-. cbn. lia.
  - cbn [for_each] in Hrun.
    destruct (parse_row extrema r) as [s|] eqn:Hrow; [|done].
    cbn [mbind result_bind] in Hrun. apply IH in Hrun.
    apply parse_row_length in Hrow. rewrite Hrun, Hrow, fmap_cons. cbn. lia.
Qed.

(** X4.  A run that returns gives one extremum for every filled slot of the
    rows whose date does not start with [EXAMPLE], and none for a slot
    whose time or height is missing or blank. *)
Theorem parse_csv_to_extrema_length (rows : list row) (extrema : list extremum) :
  parse_csv_to_extrema rows = Ok extrema →
  length extrema = sum_list (filled_slots <$> rows).
Proof.
  unfold parse_csv_to_extrema. intros Hrun.
  destruct (for_each parse_row rows []) as [parsed|] eqn:Hloop; [|done].
  injection Hrun as <-.
  rewrite (Permutation_length (sort_by_time_Permutation parsed)).
  by rewrite (parse_rows_length _ _ _ Hloop).
Qed.

Lemma parse_csv_to_extrema_length_witness :
  length [Extremum (at_time 2025 12 1 10 7) (11 / 10)]
  = sum_list (filled_slots <$> [short_time_row]).
Proof.
  apply (parse_csv_to_extrema_length [short_time_row]).
  vm_compute. reflexivity.
Defined.

(** ** More on the calendar *)

Lemma leap_block_days :
  all_from (fun c => block_day_check true (ord2ymd_in_block 0 false true c))
           (Z.to_nat 1461) 0 = true.
Proof. vm_compute. reflexivity. Qed.

Lemma common_block_days :
  all_from (fun c => block_day_check false (ord2ymd_in_block 0 false false c))
           (Z.to_nat 1460) 0 = true.
Proof. vm_compute. reflexivity. Qed.

Lemma block_days (leap_ok : bool) k :
  0 ≤ k ≤ (if leap_ok then 1460 else 1459) →
  block_day_check leap_ok (ord2ymd_in_block 0 false leap_ok k) = true.
Proof.
  intros Hk. destruct leap_ok.
  - apply (all_from_spec _ _ _ leap_block_days). lia.
  - apply (all_from_spec _ _ _ common_block_days). lia.
Qed.

Lemma days_in_month_shift y m k : days_in_month (y + k * 400) m = days_in_month y m.
Proof. unfold days_in_month. by rewrite is_leap_shift. Qed.

Lemma ord2ymd_in_cycle_day k y m d :
  0 ≤ k < 146097 → ord2ymd_in_cycle 0 k = (y, m, d) → d ≤ days_in_month y m.
Proof.
  intros Hk. destruct (decide (k = 146096)) as [->|Hne].
  { vm_compute. intros [= <- <- <-]. discriminate. }
  destruct (place_in_block k) as (Ha & Hb & Hc & Hsum); [lia|].
  rewrite ord2ymd_in_cycle_block.
  set (a := k / 36524) in *. set (b := k mod 36524 / 1461) in *.
  set (c := k mod 36524 mod 1461) in *.
  destruct (Z.eqb_spec a 4) as [|_]; [lia|].
  set (leap_ok := negb (b =? 24) || (a =? 3)) in *.
  rewrite ord2ymd_in_block_shift.
  pose proof (block_days leap_ok c Hc) as Hday.
  destruct (block_scanned leap_ok c) as [Hcheck _]; [by destruct leap_ok|].
  destruct (ord2ymd_in_block 0 false leap_ok c) as [[y0 m0] d0].
  apply block_check_spec in Hcheck as [(Hy & Hm & Hd) _].
  intros [= <- <- <-].
  replace (0 * 400 + 1 + a * 100 + b * 4 + y0) with (1 + a * 100 + b * 4 + y0) by lia.
  unfold days_in_month. rewrite is_leap_in_cycle by done. fold leap_ok.
  unfold block_day_check in Hday. apply Z.leb_le in Hday.
  destruct (Z.eqb_spec m0 2) as [->|Hm2]; cbn [andb] in Hday |- *.
  - change (days_in_month_table 2) with 28 in Hday |- *.
    destruct ((y0 =? 3) && leap_ok); lia.
  - lia.
Qed.

(** The day of an ordinal is a day of its month. *)
Lemma ord2ymd_day n y m d : ord2ymd n = (y, m, d) → d ≤ days_in_month y m.
Proof.
  unfold ord2ymd. cbv zeta. rewrite ord2ymd_in_cycle_shift.
  pose proof (ord2ymd_in_cycle_day ((n - 1) mod 146097)) as Hc.
  destruct (ord2ymd_in_cycle 0 ((n - 1) mod 146097)) as [[y0 m0] d0].
  intros [= <- <- <-]. rewrite days_in_month_shift.
  apply Hc; [apply Z.mod_pos_bound; lia|done].
Qed.

(** ** Reading back what [strftime] writes *)

Lemma list_ascii_of_string_app s1 s2 :
  list_ascii_of_string (s1 +:+ s2)
  = list_ascii_of_string s1 ++ list_ascii_of_string s2.
Proof. induction s1 as [|c s1 IH]; [done|]. cbn. by rewrite <- IH. Qed.

Lemma digit_of_digit_char k : 0 ≤ k ≤ 9 → Py.digit_of (digit_char k) = Some k.
Proof.
  intros Hk.
  assert (k = 0 ∨ k = 1 ∨ k = 2 ∨ k = 3 ∨ k = 4 ∨ k = 5 ∨ k = 6 ∨ k = 7
          ∨ k = 8 ∨ k = 9) as Hcases by lia.
  repeat destruct Hcases as [->|Hcases]; try subst k; reflexivity.
Qed.

Lemma zero_pad2_digits n :
  list_ascii_of_string (zero_pad 2 n)
  = [digit_char (n / 10 mod 10); digit_char (n mod 10)].
Proof.
  cbn [zero_pad list_ascii_of_string]. change (10 ^ Z.of_nat 1) with 10.
  change (10 ^ Z.of_nat 0) with 1. by rewrite Z.div_1_r.
Qed.

Lemma zero_pad4_digits n :
  list_ascii_of_string (zero_pad 4 n)
  = [digit_char (n / 1000 mod 10); digit_char (n / 100 mod 10);
     digit_char (n / 10 mod 10); digit_char (n mod 10)].
Proof.
  cbn [zero_pad list_ascii_of_string]. change (10 ^ Z.of_nat 3) with 1000.
  change (10 ^ Z.of_nat 2) with 100. change (10 ^ Z.of_nat 1) with 10.
  change (10 ^ Z.of_nat 0) with 1. by rewrite Z.div_1_r.
Qed.

Lemma match_month_zero_pad m rest :
  1 ≤ m ≤ 12 →
  match_month (list_ascii_of_string (zero_pad 2 m) ++ rest) = Some (m, rest).
Proof.
  intros Hm.
  assert (m = 1 ∨ m = 2 ∨ m = 3 ∨ m = 4 ∨ m = 5 ∨ m = 6 ∨ m = 7 ∨ m = 8
          ∨ m = 9 ∨ m = 10 ∨ m = 11 ∨ m = 12) as Hcases by lia.
  repeat destruct Hcases as [->|Hcases]; try subst m; reflexivity.
Qed.

Lemma match_day_zero_pad d :
  1 ≤ d ≤ 31 →
  match_day (list_ascii_of_string (zero_pad 2 d)) = Some (d, []).
Proof.
  intros Hd.
  assert (all_from (fun d => match match_day (list_ascii_of_string (zero_pad 2 d)) with
                             | Some (d', []) => d' =? d
                             | _ => false
                             end) (Z.to_nat 31) 1 = true) as Hall
    by (vm_compute; reflexivity).
  pose proof (all_from_spec _ _ _ Hall d ltac:(lia)) as Hd'. cbv beta in Hd'.
  destruct (match_day _) as [[d' [|]]|]; try done.
  apply Z.eqb_eq in Hd'. by subst.
Qed.

Lemma match_ymd_format y m d :
  0 ≤ y ≤ 9999 → 1 ≤ m ≤ 12 → 1 ≤ d ≤ 31 →
  match_ymd (list_ascii_of_string
               (zero_pad 4 y +:+ "-" +:+ zero_pad 2 m +:+ "-" +:+ zero_pad 2 d))
  = Some (y, m, d).
Proof.
  intros Hy Hm Hd.
  rewrite !list_ascii_of_string_app, zero_pad4_digits.
  cbn [app list_ascii_of_string]. unfold match_ymd.
  rewrite !digit_of_digit_char by zlia.
  change (Ascii.eqb "-" "-") with true. cbv iota.
  rewrite match_month_zero_pad by done.
  change (Ascii.eqb "-" "-") with true. cbv iota.
  rewrite match_day_zero_pad by done.
  do 2 f_equal. f_equal. unfold Py.of_digits. cbn [foldl]. zlia.
Qed.

(** [strptime] reads back the date [strftime] wrote. *)
Lemma strptime_date_string n :
  1 ≤ n ≤ 3652059 → strptime (date_string n) = Ok (n * 1440).
Proof.
  intros Hn. unfold strptime, date_string.
  destruct (ord2ymd n) as [[y m] d] eqn:Hymd.
  destruct (ord2ymd_bounds n y m d Hn Hymd) as (Hy & Hm & Hd).
  pose proof (ord2ymd_day n y m d Hymd) as Hdim.
  rewrite match_ymd_format by lia. unfold of_date.
  destruct (Z.leb_spec 1 y), (Z.leb_spec y 9999), (Z.leb_spec 1 m),
    (Z.leb_spec m 12), (Z.leb_spec 1 d), (Z.leb_spec d (days_in_month y m));
    try lia.
  cbn [andb]. by rewrite (ymd2ord_ord2ymd n y m d Hymd).
Qed.

Lemma int_zero_pad2 k : 0 ≤ k ≤ 99 → Py.int (zero_pad 2 k) = Ok k.
Proof.
  intros Hk.
  assert (all_from (fun k => match Py.int (zero_pad 2 k) with
                             | Ok k' => k' =? k
                             | Raise _ => false
                             end) (Z.to_nat 100) 0 = true) as Hall
    by (vm_compute; reflexivity).
  pose proof (all_from_spec _ _ _ Hall k ltac:(lia)) as Hk'. cbv beta in Hk'.
  destruct (Py.int _) as [k'|]; [|done]. apply Z.eqb_eq in Hk'. by subst.
Qed.

Lemma slice_zero_pad2 h s :
  Py.slice_to 2 (zero_pad 2 h +:+ s) = zero_pad 2 h ∧
  Py.slice_from 2 (zero_pad 2 h +:+ s) = s.
Proof.
  unfold Py.slice_to, Py.slice_from.
  rewrite list_ascii_of_string_app, zero_pad2_digits. cbn [app take drop].
  split; [|apply string_of_list_ascii_of_string].
  rewrite <- zero_pad2_digits. apply string_of_list_ascii_of_string.
Qed.

(** X5.  The loader reads back what [strftime] writes: from the date string of
    a day (of a year of four digits) and the time [HHMM] of a minute of
    the day it builds the datetime of that minute, whose date and hour
    strings are the ones it was read from. *)
Theorem parse_slot_reads_strftime (n h m : Z) (height_val : string) (x : R) :
  first_four_digit_ordinal ≤ n ≤ 3652059 → 0 ≤ h ≤ 23 → 0 ≤ m ≤ 59 →
  Py.float height_val = Ok x →
  parse_slot (date_string n) (zero_pad 2 h +:+ zero_pad 2 m) height_val
  = Ok {| time := n * 1440 + h * 60 + m; height := x |} ∧
  strptime (strftime_date (n * 1440 + h * 60 + m)) = Ok (n * 1440) ∧
  strftime_hour (n * 1440 + h * 60 + m) = hour_string h.
Proof.
  intros Hn Hh Hm Hx.
  assert (first_four_digit_ordinal = 364878) as Hfirst by reflexivity.
  assert ((n * 1440 + h * 60 + m) / 1440 = n) as Hday by zlia.
  assert ((n * 1440 + h * 60 + m) mod 1440 / 60 = h) as Hhour by zlia.
  split_and!.
  - unfold parse_slot.
    destruct (slice_zero_pad2 h (zero_pad 2 m)) as [-> ->].
    rewrite !int_zero_pad2 by lia. cbn [mbind result_bind].
    rewrite strptime_date_string by lia. cbn [mbind result_bind].
    unfold replace.
    destruct (Z.leb_spec 0 h), (Z.leb_spec h 23), (Z.leb_spec 0 m),
      (Z.leb_spec m 59); try lia.
    cbn [andb mbind result_bind]. rewrite Hx. cbn [mbind result_bind].
    do 2 f_equal. zlia.
  - unfold strftime_date. rewrite Hday. apply strptime_date_string. lia.
  - unfold strftime_hour. by rewrite Hhour.
Qed.

Lemma parse_slot_reads_strftime_witness :
  parse_slot (date_string 739586) (zero_pad 2 7 +:+ zero_pad 2 46) "2.7"
  = Ok {| time := 739586 * 1440 + 7 * 60 + 46; height := 27 / 10 |} ∧
  strptime (strftime_date (739586 * 1440 + 7 * 60 + 46)) = Ok (739586 * 1440) ∧
  strftime_hour (739586 * 1440 + 7 * 60 + 46) = hour_string 7.
Proof.
  apply (parse_slot_reads_strftime 739586 7 46 "2.7" (27 / 10)).
  - vm_compute. split; discriminate.
  - lia.
  - lia.
  - vm_compute. reflexivity.
Defined.

(** ** More on rounding *)

Lemma round_half_even_bounds (r : R) (a b : Z) :
  (IZR a <= r)%R → (r <= IZR b)%R → a ≤ Py.round_half_even r ≤ b.
Proof.
  intros Ha Hb. unfold Py.round_half_even.
  destruct (archimed r) as [Hup1 Hup2].
  assert (IZR (up r - 1) <= r)%R as Hf1 by (rewrite minus_IZR; lra).
  assert (r < IZR (up r - 1) + 1)%R as Hf2 by (rewrite minus_IZR; lra).
  assert (a ≤ up r - 1) as Haf.
  { apply Z.lt_succ_r, lt_IZR. rewrite succ_IZR. lra. }
  destruct (Rlt_dec (r - IZR (up r - 1)) (1 / 2)) as [Hlt|Hge].
  - split; [done|]. apply le_IZR. lra.
  - assert (up r - 1 + 1 ≤ b) as Hfb.
    { apply Z.le_succ_l, lt_IZR. lra. }
    destruct (Rlt_dec (1 / 2) (r - IZR (up r - 1))); [lia|].
    destruct (Z.even (up r - 1)); lia.
Qed.

Lemma round1_bounds (x : R) (lo hi : Z) :
  (IZR lo / 10 <= x <= IZR hi / 10)%R →
  (∃ k : Z, Py.round1 x = (IZR k / 10)%R) ∧
  (IZR lo / 10 <= Py.round1 x <= IZR hi / 10)%R.
Proof.
  intros [Hlo Hhi]. unfold Py.round1. split; [by eexists|].
  destruct (round_half_even_bounds (x * 10) lo hi) as [H1 H2]; [lra..|].
  apply IZR_le in H1, H2. lra.
Qed.

(** ** More on the hourly reconstructor *)

Lemma comprehension_Ok {A B} (f : A → result B) l out b :
  comprehension f l = Ok out → b ∈ out → ∃ a, a ∈ l ∧ f a = Ok b.
Proof.
  revert out. induction l as [|a l IH]; intros out Hrun Hin.
  - injection Hrun as <-. by apply elem_of_nil in Hin.
  - cbn [comprehension] in Hrun. destruct (f a) as [b'|] eqn:Hfa; [|done].
    cbn [mbind result_bind] in Hrun.
    destruct (comprehension f l) as [bs|]; [|done].
    injection Hrun as <-. apply elem_of_cons in Hin as [->|Hin].
    + exists a. split; [by left|done].
    + destruct (IH bs eq_refl Hin) as (a' & ? & ?). exists a'.
      split; [by right|done].
Qed.

Lemma getitem_Ok `{Countable K} {V : Type} (d : gmap K V) (k : K) (v : V) :
  getitem d k = Ok v → d !! k = Some v.
Proof. unfold getitem. destruct (d !! k); [|done]. by intros [= ->]. Qed.

(** A property of every sample is a property of every height the loop
    files. *)
Lemma hourly_loop_heights (P : R → Prop) extrema end_ (n : nat) :
  (∀ t v, sample extrema t = Some v → P v) →
  ∀ t d d', (Z.to_nat (end_ - t + 1) ≤ n)%nat →
    (∀ ks hs v, lookup2 d ks hs = Some v → P v) →
    hourly_loop extrema end_ t d = Ok d' →
    ∀ ks hs v, lookup2 d' ks hs = Some v → P v.
Proof.
  intros Hsample. induction n as [|n IH]; intros t d d' Hn Hd Hrun.
  - rewrite hourly_loop_step, decide_False in Hrun by lia. by injection Hrun as <-.
  - rewrite hourly_loop_step in Hrun.
    destruct (decide (t ≤ end_)); [|by injection Hrun as <-].
    rewrite scan_pairs_spec in Hrun.
    refine (IH (add_hour t) _ d' _ _ Hrun); [unfold add_hour; lia|].
    destruct (sample extrema t) as [v|] eqn:Hs; [|done].
    intros ks hs v'. rewrite lookup2_record_sample.
    destruct (decide _); [|apply Hd]. intros [= <-]. by apply (Hsample t).
Qed.

(** The run of [generate_hourly_tides] on a list that is not empty. *)
Lemma generate_hourly_tides_run extrema out :
  generate_hourly_tides extrema = Ok out →
  ∃ e0 en d, head extrema = Some e0 ∧ last extrema = Some en ∧
    hourly_loop extrema (range_end en) (range_start e0) ∅ = Ok d ∧
    ∀ day, day ∈ out → ∃ ks, d !! ks = Some day.
Proof.
  unfold generate_hourly_tides. intros Hrun.
  destruct extrema as [|e0 rest]; [done|].
  cbn [first_item mbind result_bind] in Hrun.
  rewrite replace_range_start in Hrun. cbn [mbind result_bind] in Hrun.
  unfold last_item in Hrun.
  destruct (last (e0 :: rest)) as [en|] eqn:Hlast; [|done].
  cbn [mbind result_bind] in Hrun.
  rewrite replace_range_end in Hrun. cbn [mbind result_bind] in Hrun.
  destruct (hourly_loop _ _ _ _) as [d|] eqn:Hloop; [|done].
  cbn [mbind result_bind] in Hrun.
  exists e0, en, d. split_and!; [done..|].
  intros day Hin.
  destruct (comprehension_Ok _ _ _ _ Hrun Hin) as (ks & _ & Hget).
  exists ks. by apply getitem_Ok.
Qed.

Lemma generate_hourly_tides_all_heights (P : R → Prop) extrema out :
  generate_hourly_tides extrema = Ok out →
  (∀ t v, sample extrema t = Some v → P v) →
  ∀ day hs v, day ∈ out → hours day !! hs = Some v → P v.
Proof.
  intros Hrun Hsample day hs v Hin Hv.
  destruct (generate_hourly_tides_run _ _ Hrun) as (e0 & en & d & _ & _ & Hloop & Hout).
  destruct (Hout day Hin) as [ks Hks].
  eapply (hourly_loop_heights P extrema _ _ Hsample _ ∅ d (Nat.le_refl _));
    [|exact Hloop|].
  - intros ks' hs' v'. by rewrite lookup2_empty.
  - unfold lookup2. rewrite Hks. exact Hv.
Qed.

Lemma sample_bounds extrema t v (lo hi : Z) :
  Forall (fun e => (IZR lo / 10 <= height e <= IZR hi / 10)%R) extrema →
  sample extrema t = Some v →
  (∃ k : Z, v = (IZR k / 10)%R) ∧ (IZR lo / 10 <= v <= IZR hi / 10)%R.
Proof.
  intros Hall. unfold sample.
  destruct (bracket extrema t) as [[a b]|] eqn:Hb; [|done].
  intros [= <-]. cbn [fst snd].
  apply bracket_Some in Hb as (_ & Ha & Hb).
  rewrite Forall_forall in Hall.
  pose proof (Hall a Ha) as Hha. pose proof (Hall b Hb) as Hhb.
  apply round1_bounds.
  pose proof (interpolate_bounds t a b) as Hi.
  unfold Rmin, Rmax in Hi. destruct (Rle_dec (height a) (height b)); lra.
Qed.




(** X12.  When every extremum is within the range [validate_output] takes for
    plausible, from -0.5 to 4 m, so is every height of the output: the
    only issues [validate_output] can then report are incomplete days. *)
Theorem plausible_extrema_plausible_levels (extrema : list extremum)
    (out : list DailyRecord) :
  generate_hourly_tides extrema = Ok out →
  Forall (fun e => (-0.5 <= height e <= 4)%R) extrema →
  ∀ f, f ∈ (validate_output out).1 →
    ∃ date hours_present, f = OnlyHours date hours_present.
Proof.
  intros Hrun Hall f Hf.
  apply elem_of_validate_output in Hf
    as [(day & _ & _ & ->)|(day & h & level & Hin & Hl & Hu & _)];
    [by eexists _, _|].
  exfalso. apply Hu.
  assert ((∃ k : Z, level = (IZR k / 10)%R) ∧
          (IZR (-5) / 10 <= level <= IZR 40 / 10)%R) as [_ Hb].
  { apply (generate_hourly_tides_all_heights
             (fun v => (∃ k : Z, v = (IZR k / 10)%R) ∧
                       (IZR (-5) / 10 <= v <= IZR 40 / 10)%R)
             extrema out Hrun) with day h; [|done..].
    intros t v. apply sample_bounds.
    eapply Forall_impl; [exact Hall|]. intros e He. cbv beta in He. lra. }
  lra.
Qed.

Lemma docstring_extrema_plausible :
  Forall (fun e => (-0.5 <= height e <= 4)%R) docstring_extrema.
Proof. repeat constructor; cbn [height]; lra. Qed.

Lemma plausible_extrema_plausible_levels_witness :
  ∃ out, generate_hourly_tides docstring_extrema = Ok out ∧
    ∀ f, f ∈ (validate_output out).1 →
      ∃ date hours_present, f = OnlyHours date hours_present.
Proof.
  destruct (generate_hourly_tides_spec docstring_extrema
              (Extremum (at_time 2025 12 1 1 7) (11 / 10))
              (Extremum (at_time 2025 12 1 20 18) (26 / 10)))
    as (out & Hrun & _); [reflexivity..|].
  exists out. split; [exact Hrun|].
  exact (plausible_extrema_plausible_levels docstring_extrema out Hrun
           docstring_extrema_plausible).
Defined.

Lemma hour_strings_NoDup : NoDup (hour_string <$> seqZ 0 24).
Proof.
  apply NoDup_fmap_2_strong; [|apply NoDup_seqZ].
  intros h1 h2 H1%elem_of_seqZ H2%elem_of_seqZ. apply hour_string_inj; lia.
Qed.

Lemma size_hour_keys (m : gmap string R) :
  (∀ hs, is_Some (m !! hs) → ∃ h, 0 ≤ h < 24 ∧ hs = hour_string h) →
  (size m ≤ 24)%nat.
Proof.
  intros Hm.
  assert (dom m ⊆ list_to_set (C := gset string) (hour_string <$> seqZ 0 24))
    as Hdom.
  { intros hs. rewrite elem_of_dom, elem_of_list_to_set, list_elem_of_fmap.
    intros (h & Hh & ->)%Hm. exists h. split; [done|]. apply elem_of_seqZ. lia. }
  apply subseteq_size in Hdom.
  rewrite size_dom, size_list_to_set in Hdom by apply hour_strings_NoDup.
  by rewrite length_fmap, length_seqZ in Hdom.
Qed.

(** X10.  A day of the output has at least one hour entry and at most 24, each
    under one of the keys [00:00] to [23:00], and its date is the date of
    a tick of the loop: no day is empty, and none is outside the days
    from the first extremum to the last. *)
Theorem generate_hourly_tides_day_entries (extrema : list extremum)
    (out : list DailyRecord) :
  generate_hourly_tides extrema = Ok out →
  ∀ day, day ∈ out →
    (1 ≤ size (hours day) ≤ 24)%nat ∧
    (∀ hs, is_Some (hours day !! hs) → ∃ h, 0 ≤ h < 24 ∧ hs = hour_string h) ∧
    ∃ e0 en t, head extrema = Some e0 ∧ last extrema = Some en ∧
      time e0 / 1440 ≤ t / 1440 ≤ time en / 1440 ∧
      Date day = strftime_date t.
Proof.
  intros Hrun day Hin.
  destruct (generate_hourly_tides_run _ _ Hrun) as (e0 & en & _ & Hhd & Hlast & _).
  destruct (generate_hourly_tides_spec extrema e0 en Hhd Hlast)
    as (out' & Hrun' & _ & Hwf & _).
  rewrite Hrun in Hrun'. injection Hrun' as <-.
  destruct (Hwf day Hin) as [[hs0 Hs0] Hkeys].
  assert (∀ hs, is_Some (hours day !! hs) → ∃ h, 0 ≤ h < 24 ∧ hs = hour_string h)
    as Hhours.
  { intros hs Hs. destruct (Hkeys hs Hs) as (t & _ & _ & _ & <-).
    apply strftime_hour_range. }
  split_and!.
  - destruct (size (hours day)) eqn:Hsize; [|lia].
    apply map_size_empty_inv in Hsize. rewrite Hsize, lookup_empty in Hs0.
    by destruct Hs0.
  - by apply size_hour_keys.
  - done.
  - destruct (Hkeys hs0 Hs0) as (t & _ & Hr & HD & _).
    exists e0, en, t. split_and!; [done..| | |done];
      unfold range_start, range_end in Hr; zlia.
Qed.

Lemma generate_hourly_tides_day_entries_witness :
  ∃ out, generate_hourly_tides docstring_extrema = Ok out ∧
    ∀ day, day ∈ out →
      (1 ≤ size (hours day) ≤ 24)%nat ∧
      (∀ hs, is_Some (hours day !! hs) → ∃ h, 0 ≤ h < 24 ∧ hs = hour_string h) ∧
      ∃ e0 en t, head docstring_extrema = Some e0 ∧
        last docstring_extrema = Some en ∧
        time e0 / 1440 ≤ t / 1440 ≤ time en / 1440 ∧
        Date day = strftime_date t.
Proof.
  destruct (generate_hourly_tides_spec docstring_extrema
              (Extremum (at_time 2025 12 1 1 7) (11 / 10))
              (Extremum (at_time 2025 12 1 20 18) (26 / 10)))
    as (out & Hrun & _); [reflexivity..|].
  exists out. split; [exact Hrun|].
  exact (generate_hourly_tides_day_entries docstring_extrema out Hrun).
Defined.

(** A loop whose ticks find no pair leaves the dictionary as it was. *)
Lemma hourly_loop_idle extrema end_ (n : nat) :
  (∀ t d, scan_pairs extrema t d = Ok d) →
  ∀ t d, (Z.to_nat (end_ - t + 1) ≤ n)%nat → hourly_loop extrema end_ t d = Ok d.
Proof.
  intros Hscan. induction n as [|n IH]; intros t d Hn.
  - by rewrite hourly_loop_step, decide_False by lia.
  - rewrite hourly_loop_step. destruct (decide (t ≤ end_)); [|done].
    rewrite Hscan. apply IH. unfold add_hour. lia.
Qed.

(** X11.  A single extremum has no neighbour to interpolate with: the 24 ticks
    of its day find no pair, and the list returned is empty.  (On the
    last day of the calendar, 9999-12-31, the addition of an hour to the
    last tick leaves the range of [datetime].) *)
Theorem generate_hourly_tides_single_extremum (e : extremum) :
  valid_datetime (time e) → time e / 1440 < 3652059 →
  generate_hourly_tides [e] = Ok [].
Proof.
  intros _ _. unfold generate_hourly_tides.
  cbn [first_item mbind result_bind].
  rewrite replace_range_start. cbn [mbind result_bind].
  unfold last_item. cbn [last mbind result_bind].
  rewrite replace_range_end. cbn [mbind result_bind].
  rewrite (hourly_loop_idle [e] _ _ (fun t d => eq_refl) _ _ (Nat.le_refl _)).
  cbn [mbind result_bind]. unfold sorted_keys. by rewrite map_to_list_empty.
Qed.

Lemma generate_hourly_tides_single_extremum_witness :
  generate_hourly_tides [Extremum (at_time 2025 12 1 1 7) (11 / 10)] = Ok [].
Proof.
  apply (generate_hourly_tides_single_extremum
           (Extremum (at_time 2025 12 1 1 7) (11 / 10))).
  - vm_compute. split; [discriminate|reflexivity].
  - vm_compute. reflexivity.
Defined.

(** ** More on the output validator *)

(** X13.  [validate_output] reports nothing exactly when every day has its 24
    hour entries and every height lies between -0.5 and 4 m. *)
Theorem validate_output_passes_iff (daily_tides : list DailyRecord) :
  (validate_output daily_tides).1 = [] ↔
  ∀ day, day ∈ daily_tides →
    size (hours day) = 24%nat ∧
    ∀ h level, hours day !! h = Some level → (-0.5 <= level <= 4)%R.
Proof.
  split.
  - intros Hnone day Hin. split.
    + destruct (decide (size (hours day) = 24%nat)) as [|Hne]; [done|].
      assert (OnlyHours (Date day) (size (hours day))
              ∈ (validate_output daily_tides).1) as Hf
        by (apply elem_of_validate_output; left; by exists day).
      rewrite Hnone in Hf. by apply elem_of_nil in Hf.
    + intros h level Hl.
      destruct (Rle_dec (-0.5) level) as [H1|H1], (Rle_dec level 4) as [H2|H2];
        [done|exfalso..];
        (assert (UnusualLevel (Date day) h level
                 ∈ (validate_output daily_tides).1) as Hf
           by (apply elem_of_validate_output; right; exists day, h, level;
               split_and!; [done|done|lra|done]);
         rewrite Hnone in Hf; by apply elem_of_nil in Hf).
  - intros Hall.
    destruct ((validate_output daily_tides).1) as [|f issues] eqn:Hissues; [done|].
    assert (f ∈ (validate_output daily_tides).1) as Hf
      by (rewrite Hissues; by left).
    apply elem_of_validate_output in Hf
      as [(day & Hin & Hne & _)|(day & h & level & Hin & Hl & Hu & _)].
    + by destruct (Hall day Hin) as [? _].
    + destruct (Hall day Hin) as [_ Hlevels]. by destruct Hu; apply (Hlevels h).
Qed.

(** ** More on [main] *)






(** ** The renderer *)

(** *** [group_by_month] *)

Lemma group_day_dated months day date :
  Pdf.date_entry day = Some date →
  Pdf.group_day months day
  = Ok (<[Py.slice_to 7 date :=
            default [] (months !! Py.slice_to 7 date) ++ [day]]> months).
Proof.
  intros Hd. unfold Pdf.group_day, Pdf.subscript_date. rewrite Hd.
  cbn [mbind result_bind].
  destruct (months !! Py.slice_to 7 date) as [g|] eqn:Hg.
  - by rewrite (getitem_Some _ _ _ Hg).
  - rewrite (getitem_Some _ _ [] (lookup_insert_eq _ _ _)).
    simpl. by rewrite insert_insert_eq.
Qed.

Lemma group_day_undated months day :
  Pdf.date_entry day = None → Pdf.group_day months day = Raise KeyError.
Proof. intros Hd. unfold Pdf.group_day, Pdf.subscript_date. by rewrite Hd. Qed.

Lemma days_of_month_cons ym day l :
  days_of_month ym (day :: l)
  = if decide (year_month_of day = Some ym) then day :: days_of_month ym l
    else days_of_month ym l.
Proof. unfold days_of_month. by rewrite filter_cons. Qed.

(** What the loop of [group_by_month] adds to the dictionary. *)
Lemma group_days_spec l : ∀ months0 months,
  for_each Pdf.group_day l months0 = Ok months →
  (∀ ym, default [] (months !! ym)
         = default [] (months0 !! ym) ++ days_of_month ym l) ∧
  ((∀ ym g, months0 !! ym = Some g → g ≠ []) →
   ∀ ym g, months !! ym = Some g → g ≠ []).
Proof.
  induction l as [|day l IH]; intros months0 months Hrun.
  - injection Hrun as <-. split; [|done]. intros ym.
    unfold days_of_month. by rewrite filter_nil, app_nil_r.
  - cbn [for_each] in Hrun.
    destruct (Pdf.date_entry day) as [date|] eqn:Hd;
      [|by rewrite (group_day_undated _ _ Hd) in Hrun].
    rewrite (group_day_dated _ _ _ Hd) in Hrun. cbn [mbind result_bind] in Hrun.
    apply IH in Hrun as [Hcontent Hne]. split.
    + intros ym. rewrite Hcontent, days_of_month_cons.
      unfold year_month_of. rewrite Hd. cbn [fmap option_fmap option_map].
      destruct (decide (Some (Py.slice_to 7 date) = Some ym)) as [[= <-]|Hother].
      * rewrite lookup_insert_eq. simpl. by rewrite <- app_assoc.
      * rewrite lookup_insert_ne by congruence. done.
    + intros Hne0. apply Hne. intros ym g.
      destruct (decide (Py.slice_to 7 date = ym)) as [<-|Hother].
      * rewrite lookup_insert_eq. intros [= <-]. by destruct (default _ _).
      * rewrite lookup_insert_ne by done. apply Hne0.
Qed.

Lemma group_by_month_lookup tide_data months ym :
  Pdf.group_by_month tide_data = Ok months →
  months !! ym = match days_of_month ym tide_data with
                 | [] => None
                 | g => Some g
                 end.
Proof.
  intros Hrun. apply group_days_spec in Hrun as [Hcontent Hne].
  specialize (Hcontent ym). rewrite lookup_empty in Hcontent.
  simpl in Hcontent.
  destruct (months !! ym) as [g|] eqn:Hg; simpl in Hcontent.
  - rewrite <- Hcontent.
    assert (g ≠ []) by (apply (Hne ltac:(by intros ??; rewrite lookup_empty) ym g Hg)).
    by destruct g.
  - by rewrite <- Hcontent.
Qed.

(** X15.  [group_by_month] files every day under the first seven characters of
    its date: the group of a year and month holds the days of the list
    with that prefix, in the order of the list, and no group is empty. *)
Theorem group_by_month_groups (tide_data : list Pdf.TideDay)
    (months : gmap string (list Pdf.TideDay)) :
  Pdf.group_by_month tide_data = Ok months →
  ∀ year_month group,
    months !! year_month = Some group ↔
    group ≠ [] ∧ group = days_of_month year_month tide_data.
Proof.
  intros Hrun ym g. rewrite (group_by_month_lookup _ _ ym Hrun).
  destruct (days_of_month ym tide_data) as [|day l].
  - split; [done|]. by intros [? ->].
  - split; [by intros [= <-]|]. by intros [_ ->].
Qed.




(** *** [create_month_table] *)

Lemma for_each_append {A B} (f : A → result B) l : ∀ acc,
  for_each (fun acc a => b ← f a; Ok (acc ++ [b])) l acc
  = bs ← comprehension f l; Ok (acc ++ bs).
Proof.
  induction l as [|a l IH]; intros acc.
  - cbn. by rewrite app_nil_r.
  - cbn [for_each comprehension]. destruct (f a) as [b|]; [|done].
    cbn [mbind result_bind]. rewrite IH.
    destruct (comprehension f l) as [bs|]; [|done].
    cbn [mbind result_bind]. by rewrite <- app_assoc.
Qed.

Lemma for_each_ext {A S} (body body' : S → A → result S) l s :
  (∀ s a, body s a = body' s a) → for_each body l s = for_each body' l s.
Proof.
  intros Hext. revert s. induction l as [|a l IH]; intros s; [done|].
  cbn [for_each]. rewrite Hext. destruct (body' s a); [apply IH|done].
Qed.

Lemma comprehension_length {A B} (f : A → result B) l out :
  comprehension f l = Ok out → length out = length l.
Proof.
  revert out. induction l as [|a l IH]; intros out Hrun.
  - by injection Hrun as <-.
  - cbn [comprehension] in Hrun. destruct (f a); [|done].
    cbn [mbind result_bind] in Hrun.
    destruct (comprehension f l) as [bs|]; [|done].
    injection Hrun as <-. cbn. f_equal. by apply IH.
Qed.

Lemma comprehension_fmap {A B} (f : A → result B) (g : A → B) l :
  (∀ a, a ∈ l → f a = Ok (g a)) → comprehension f l = Ok (g <$> l).
Proof.
  induction l as [|a l IH]; intros Hf; [done|].
  cbn [comprehension]. rewrite Hf by (by left). cbn [mbind result_bind].
  rewrite IH; [done|]. intros a' Hin. apply Hf. by right.
Qed.

Lemma comprehension_app {A B} (f : A → result B) l1 l2 :
  comprehension f (l1 ++ l2)
  = bs1 ← comprehension f l1; bs2 ← comprehension f l2; Ok (bs1 ++ bs2).
Proof.
  induction l1 as [|a l1 IH].
  - cbn. by destruct (comprehension f l2).
  - cbn [app comprehension]. destruct (f a) as [b|]; [|done].
    cbn [mbind result_bind]. rewrite IH.
    destruct (comprehension f l1) as [bs1|]; [|done].
    cbn [mbind result_bind]. by destruct (comprehension f l2).
Qed.

Section TableRows.

Variable format_1f : R → string.

Lemma table_row_day_row data day_data :
  Pdf.table_row format_1f data day_data
  = row ← day_row format_1f day_data; Ok (data ++ [row]).
Proof.
  unfold Pdf.table_row, day_row.
  destruct (Pdf.subscript_date day_data) as [date|]; [|done].
  cbn [mbind result_bind].
  destruct (Pdf.item (Pdf.split "-" date) 2) as [field|]; [|done].
  cbn [mbind result_bind].
  destruct (Py.int field) as [day|]; [|done].
  cbn [mbind result_bind].
  change (Pdf.hour_cell format_1f day_data)
    with (fun row h => cell ← day_cell format_1f day_data h; Ok (row ++ [cell])).
  rewrite for_each_append.
  by destruct (comprehension (day_cell format_1f day_data) (seqZ 0 24)).
Qed.

(** The table of a month is its header and the rows of its days. *)
Lemma create_month_table_rows month_data :
  Pdf.create_month_table format_1f month_data
  = rows ← comprehension (day_row format_1f) month_data;
    Ok (table_header :: rows).
Proof.
  unfold Pdf.create_month_table. cbv zeta.
  rewrite (for_each_ext _ _ _ _ table_row_day_row).
  by rewrite for_each_append.
Qed.

Lemma day_row_length day_data row :
  day_row format_1f day_data = Ok row → length row = 25%nat.
Proof.
  unfold day_row. intros Hrow.
  destruct (Pdf.subscript_date day_data) as [date|]; [|done].
  cbn [mbind result_bind] in Hrow.
  destruct (Pdf.item (Pdf.split "-" date) 2) as [field|]; [|done].
  cbn [mbind result_bind] in Hrow.
  destruct (Py.int field) as [day|]; [|done].
  cbn [mbind result_bind] in Hrow.
  destruct (comprehension _ _) as [cells|] eqn:Hcells; [|done].
  injection Hrow as <-. apply comprehension_length in Hcells.
  cbn [length]. by rewrite Hcells, length_seqZ.
Qed.

End TableRows.

(** X17.  A table that [create_month_table] returns is a grid: the header
    [Day], [00], ..., [23] and one row for every day of the month, in the
    order of the days, each of 25 cells. *)
Theorem create_month_table_grid (format_1f : R → string)
    (month_data : list Pdf.TideDay) (data : list (list string)) :
  Pdf.create_month_table format_1f month_data = Ok data →
  head data = Some table_header ∧
  length data = S (length month_data) ∧
  Forall (fun row => length row = 25%nat) data ∧
  ∀ (i : nat) day_data, month_data !! i = Some day_data →
    ∃ row, data !! S i = Some row ∧ day_row format_1f day_data = Ok row.
Proof.
  rewrite create_month_table_rows. intros Hrun.
  destruct (comprehension (day_row format_1f) month_data) as [rows|] eqn:Hrows;
    [|done].
  injection Hrun as <-. split_and!.
  - done.
  - cbn [length]. by rewrite (comprehension_length _ _ _ Hrows).
  - constructor; [by vm_compute|].
    apply Forall_forall. intros row Hin.
    destruct (comprehension_Ok _ _ _ _ Hrows Hin) as (day_data & _ & Hrow).
    by apply day_row_length in Hrow.
  - intros i day_data Hi. cbn [lookup list_lookup].
    clear -Hrows Hi. revert rows i Hrows Hi.
    induction month_data as [|d l IH]; intros rows i Hrows Hi; [done|].
    cbn [comprehension] in Hrows.
    destruct (day_row format_1f d) as [row|] eqn:Hrow; [|done].
    cbn [mbind result_bind] in Hrows.
    destruct (comprehension (day_row format_1f) l) as [rows'|]; [|done].
    injection Hrows as <-. destruct i as [|i].
    + cbn in Hi. injection Hi as <-. by exists row.
    + cbn in Hi |- *. by apply IH.
Qed.






(** *** Days of the converter's output *)

Lemma split_chars_no_sep sep l :
  Forall (fun c => Ascii.eqb c sep = false) l → Pdf.split_chars sep l = [l].
Proof.
  induction 1 as [|c l Hc _ IH]; [done|].
  cbn [Pdf.split_chars]. by rewrite Hc, IH.
Qed.

Lemma split_chars_app sep l1 l2 :
  Forall (fun c => Ascii.eqb c sep = false) l1 →
  Pdf.split_chars sep (l1 ++ sep :: l2) = l1 :: Pdf.split_chars sep l2.
Proof.
  induction 1 as [|c l Hc _ IH].
  - cbn [app Pdf.split_chars]. by rewrite Ascii.eqb_refl.
  - cbn [app Pdf.split_chars]. by rewrite Hc, IH.
Qed.

Lemma digit_char_not_dash k :
  0 ≤ k ≤ 9 → Ascii.eqb (digit_char k) "-" = false.
Proof.
  intros Hk.
  assert (k = 0 ∨ k = 1 ∨ k = 2 ∨ k = 3 ∨ k = 4 ∨ k = 5 ∨ k = 6 ∨ k = 7
          ∨ k = 8 ∨ k = 9) as Hcases by lia.
  repeat destruct Hcases as [->|Hcases]; try subst k; reflexivity.
Qed.

Lemma zero_pad_no_dash w n :
  Forall (fun c => Ascii.eqb c "-" = false) (list_ascii_of_string (zero_pad w n)).
Proof.
  induction w as [|w IH]; [constructor|].
  cbn [zero_pad list_ascii_of_string]. constructor; [|done].
  apply digit_char_not_dash. zlia.
Qed.

Lemma split_append_dash w n s :
  Pdf.split "-" (zero_pad w n +:+ "-" +:+ s) = zero_pad w n :: Pdf.split "-" s.
Proof.
  unfold Pdf.split. rewrite !list_ascii_of_string_app.
  cbn [list_ascii_of_string app].
  rewrite split_chars_app by apply zero_pad_no_dash.
  by rewrite fmap_cons, string_of_list_ascii_of_string.
Qed.

Lemma split_zero_pad w n : Pdf.split "-" (zero_pad w n) = [zero_pad w n].
Proof.
  unfold Pdf.split. rewrite split_chars_no_sep by apply zero_pad_no_dash.
  cbn. by rewrite string_of_list_ascii_of_string.
Qed.

(** The three fields of a date string. *)
Lemma split_date_string n :
  Pdf.split "-" (date_string n)
  = [zero_pad 4 (ord2ymd n).1.1; zero_pad 2 (ord2ymd n).1.2;
     zero_pad 2 (ord2ymd n).2].
Proof.
  unfold date_string. destruct (ord2ymd n) as [[y m] d]. cbn [fst snd].
  by rewrite !split_append_dash, split_zero_pad.
Qed.

Lemma load_day_cell format_1f (day : DailyRecord) h :
  day_cell format_1f (load_day day) h
  = Ok (match hours day !! hour_string h with
        | Some v => format_1f v
        | None => ""
        end).
Proof.
  unfold day_cell, load_day. cbn [Pdf.level_entries]. rewrite lookup_fmap.
  by destruct (hours day !! hour_string h).
Qed.

Lemma load_day_row format_1f n (day : DailyRecord) :
  1 ≤ n ≤ 3652059 → Date day = date_string n →
  day_row format_1f (load_day day) = Ok (record_row format_1f n day).
Proof.
  intros Hn HD. unfold day_row, Pdf.subscript_date, record_row.
  cbn [load_day Pdf.date_entry mbind result_bind].
  rewrite HD, split_date_string. unfold Pdf.item.
  cbn [lookup list_lookup mbind result_bind].
  destruct (ord2ymd n) as [[y m] d] eqn:Hymd. cbn [fst snd].
  destruct (ord2ymd_bounds n y m d Hn Hymd) as (_ & _ & Hd).
  rewrite int_zero_pad2 by lia. cbn [mbind result_bind].
  rewrite (comprehension_fmap _ (fun h => match hours day !! hour_string h with
                                          | Some v => format_1f v
                                          | None => ""
                                          end)); [done|].
  intros h _. apply load_day_cell.
Qed.

Lemma load_days_rows format_1f (ordinals : list Z) (days : list DailyRecord) :
  Forall2 (fun n day => 1 ≤ n ≤ 3652059 ∧ Date day = date_string n)
          ordinals days →
  comprehension (day_row format_1f) (load_day <$> days)
  = Ok (zip_with (record_row format_1f) ordinals days).
Proof.
  induction 1 as [|n day ordinals days [Hn HD] _ IH]; [done|].
  rewrite fmap_cons. cbn [comprehension zip_with].
  rewrite (load_day_row _ n) by done. cbn [mbind result_bind].
  by rewrite IH.
Qed.

(** X19.  The table of days the converter wrote: [create_month_table] returns,
    and the row of a day holds the day of the month, without a leading
    zero, and for each of the 24 hours the text of the height the day has
    for the hour, or nothing where it has none. *)
Theorem create_month_table_of_output (format_1f : R → string)
    (ordinals : list Z) (days : list DailyRecord) :
  Forall2 (fun n day => 1 ≤ n ≤ 3652059 ∧ Date day = date_string n)
          ordinals days →
  Pdf.create_month_table format_1f (load_day <$> days)
  = Ok (table_header :: zip_with (record_row format_1f) ordinals days).
Proof.
  intros Hall. rewrite create_month_table_rows.
  by rewrite (load_days_rows _ _ _ Hall).
Qed.

(** *** [generate_pdf] *)

Lemma tables_app els1 els2 : tables (els1 ++ els2) = tables els1 ++ tables els2.
Proof. unfold tables. apply omap_app. Qed.

Lemma page_breaks_app els1 els2 :
  page_breaks (els1 ++ els2) = (page_breaks els1 + page_breaks els2)%nat.
Proof. unfold page_breaks. by rewrite omap_app, length_app. Qed.

Lemma enumerate_from_cons {A} (k : nat) (x : A) l :
  imap (fun i a => ((k + i)%nat, a)) (x :: l)
  = (k, x) :: imap (fun i a => ((S k + i)%nat, a)) l.
Proof.
  cbn [imap]. f_equal; [f_equal; lia|].
  apply imap_ext. intros i a _. cbn. f_equal. lia.
Qed.

(** What a page adds to the flowables: a title, a subtitle, the table
    of the month, a spacer and a footer, and a page break unless the
    month is the last. *)
Lemma month_page_Ok format_1f location count elements i year_month month_data
    elements' :
  Pdf.month_page format_1f location count elements (i, (year_month, month_data))
  = Ok elements' →
  ∃ table_data,
    Pdf.create_month_table format_1f month_data = Ok table_data ∧
    tables elements' = tables elements ++ [table_data] ∧
    page_breaks elements'
    = (page_breaks elements + if decide (S i < count)%nat then 1 else 0)%nat.
Proof.
  unfold Pdf.month_page. intros Hrun.
  destruct (Pdf.unpack2 _) as [[year month]|]; [|done].
  cbn [mbind result_bind] in Hrun.
  destruct (getitem Pdf.month_names month) as [month_name|]; [|done].
  cbn [mbind result_bind] in Hrun.
  destruct (Pdf.create_month_table format_1f month_data) as [table_data|];
    [|done].
  cbn [mbind result_bind] in Hrun. exists table_data. split; [done|].
  destruct (Z.ltb_spec (Z.of_nat i) (Z.of_nat count - 1));
    injection Hrun as <-; rewrite ?tables_app, ?page_breaks_app;
    cbn; rewrite ?app_nil_r.
  - rewrite decide_True by lia. split; [done|lia].
  - rewrite decide_False by lia. split; [done|lia].
Qed.

Lemma month_pages_spec format_1f location count
    (l : list (string * list Pdf.TideDay)) : ∀ (k : nat) elements elements',
  (k + length l = count)%nat →
  for_each (Pdf.month_page format_1f location count)
           (imap (fun i a => ((k + i)%nat, a)) l) elements = Ok elements' →
  ∃ tbls,
    Forall2 (fun item table_data =>
               Pdf.create_month_table format_1f item.2 = Ok table_data) l tbls ∧
    tables elements' = tables elements ++ tbls ∧
    page_breaks elements' = (page_breaks elements + (length l - 1))%nat.
Proof.
  induction l as [|[year_month month_data] l IH];
    intros k elements elements' Hk Hrun.
  - injection Hrun as <-. exists []. rewrite app_nil_r. split_and!; [done..|].
    cbn. lia.
  - rewrite enumerate_from_cons in Hrun. cbn [for_each] in Hrun.
    destruct (Pdf.month_page _ _ _ _ _) as [elements1|] eqn:Hpage; [|done].
    cbn [mbind result_bind] in Hrun.
    apply month_page_Ok in Hpage as (table_data & Htable & Htables & Hbreaks).
    apply IH in Hrun as (tbls & Hall & Htables' & Hbreaks');
      [|cbn [length] in Hk; lia].
    exists (table_data :: tbls). split_and!.
    + by constructor.
    + by rewrite Htables', Htables, <- app_assoc.
    + rewrite Hbreaks', Hbreaks. cbn [length] in Hk |- *.
      destruct (decide (S k < count)%nat); lia.
Qed.

Lemma sorted_items_length {V} `{Inhabited V} (d : gmap string V) :
  length (Pdf.sorted_items d) = size d.
Proof.
  unfold Pdf.sorted_items.
  by rewrite length_fmap, merge_sort_Permutation, length_fmap,
    length_map_to_list.
Qed.

(** The document of a run that returns: the month tables of the groups
    of [group_by_month], in the order of their keys, with a page break
    after each but the last. *)
Lemma generate_pdf_spec format_1f tide_data location elements :
  Pdf.generate_pdf format_1f tide_data location = Ok elements →
  ∃ months,
    Pdf.group_by_month tide_data = Ok months ∧
    Forall2 (fun item table_data =>
               Pdf.create_month_table format_1f item.2 = Ok table_data)
            (Pdf.sorted_items months) (tables elements) ∧
    page_breaks elements = (size months - 1)%nat.
Proof.
  unfold Pdf.generate_pdf, Pdf.enumerate. intros Hrun.
  destruct (Pdf.group_by_month tide_data) as [months|]; [|done].
  cbn [mbind result_bind] in Hrun. exists months. split; [done|].
  apply (month_pages_spec _ _ _ _ 0%nat) in Hrun
    as (tbls & Hall & Htables & Hbreaks);
    [|by rewrite sorted_items_length].
  cbn [app] in Htables. rewrite Htables. split; [done|].
  rewrite Hbreaks, sorted_items_length. reflexivity.
Qed.

Lemma year_months_spec tide_data year_months ym :
  comprehension (fun day => date ← Pdf.subscript_date day;
                            Ok (Py.slice_to 7 date)) tide_data = Ok year_months →
  ym ∈ year_months ↔ days_of_month ym tide_data ≠ [].
Proof.
  set (f := fun day => _).
  assert (∀ day, f day = match Pdf.date_entry day with
                         | Some date => Ok (Py.slice_to 7 date)
                         | None => Raise KeyError
                         end) as Hf.
  { intros day. unfold f, Pdf.subscript_date. by destruct (Pdf.date_entry day). }
  revert year_months. induction tide_data as [|day l IH]; intros yms Hrun.
  - injection Hrun as <-. split; [by intros ?%elem_of_nil|done].
  - cbn [comprehension] in Hrun. rewrite Hf in Hrun.
    rewrite days_of_month_cons. unfold year_month_of.
    destruct (Pdf.date_entry day) as [date|]; [|done].
    cbn [mbind result_bind] in Hrun.
    destruct (comprehension f l) as [yms'|]; [|done].
    injection Hrun as <-. rewrite elem_of_cons, (IH yms' eq_refl).
    cbn [fmap option_fmap option_map].
    destruct (decide (Some (Py.slice_to 7 date) = Some ym)) as [[= <-]|Hne].
    + split; [done|by left].
    + split; [intros [->|?]; [done|done]|by right].
Qed.

(** X20.  The number of pages [main] reports is the number of tables of the
    document, one for every year and month of the data, and the document
    has a page break between two tables and none after the last. *)
Theorem main_page_count (format_1f : R → string) (tide_data : list Pdf.TideDay)
    (location : string) (elements : list Pdf.flowable) (months : nat) :
  Pdf.main format_1f tide_data location = Ok (elements, months) →
  length (tables elements) = months ∧
  page_breaks elements = (months - 1)%nat.
Proof.
  unfold Pdf.main. intros Hrun.
  destruct (Pdf.generate_pdf format_1f tide_data location) as [els|] eqn:Hpdf;
    [|done].
  cbn [mbind result_bind] in Hrun.
  destruct (comprehension _ tide_data) as [year_months|] eqn:Hyms; [|done].
  injection Hrun as <- <-.
  apply generate_pdf_spec in Hpdf as (groups & Hgroups & Hall & Hbreaks).
  assert (size (list_to_set (C := gset string) year_months) = size groups) as ->.
  { rewrite <- size_dom. f_equal. apply set_eq. intros ym.
    rewrite elem_of_list_to_set, elem_of_dom, (year_months_spec _ _ _ Hyms),
      (group_by_month_lookup _ _ ym Hgroups).
    destruct (days_of_month ym tide_data); [|done].
    split; [done|]. by intros [? ?]. }
  split; [|done].
  by rewrite <- (Forall2_length _ _ _ Hall), sorted_items_length.
Qed.

(** *** The order of the pages *)

Lemma slice_to_compare n : ∀ s1 s2,
  String.compare (Py.slice_to n s1) (Py.slice_to n s2) = Eq ∨
  String.compare (Py.slice_to n s1) (Py.slice_to n s2) = String.compare s1 s2.
Proof.
  induction n as [|n IH]; intros s1 s2; [by left|].
  destruct s1 as [|c1 s1], s2 as [|c2 s2]; [by left|by right|by right|].
  change (Py.slice_to (S n) (String c1 s1)) with (String c1 (Py.slice_to n s1)).
  change (Py.slice_to (S n) (String c2 s2)) with (String c2 (Py.slice_to n s2)).
  cbn [String.compare]. destruct (Ascii.compare c1 c2); [apply IH|by right..].
Qed.

(** Strings in order have their prefixes in order. *)
Lemma slice_to_le n s1 s2 :
  String.le s1 s2 → String.le (Py.slice_to n s1) (Py.slice_to n s2).
Proof.
  unfold String.le, String.leb.
  by destruct (slice_to_compare n s1 s2) as [-> | ->].
Qed.


Lemma StronglySorted_filter {A} (Rel : relation A) (P : A → Prop)
    `{∀ a, Decision (P a)} l :
  StronglySorted Rel l → StronglySorted Rel (filter P l).
Proof.
  induction 1 as [|x l _ IH Hx]; [constructor|].
  rewrite filter_cons. destruct (decide (P x)); [|done].
  constructor; [done|]. rewrite Forall_forall in Hx.
  apply Forall_forall. intros b [_ Hb]%list_elem_of_filter. by apply Hx.
Qed.

Lemma filter_all {A} (P : A → Prop) `{∀ a, Decision (P a)} l :
  Forall P l → filter P l = l.
Proof.
  induction 1 as [|x l Hx _ IH]; [done|].
  by rewrite filter_cons, decide_True, IH.
Qed.

Lemma filter_none {A} (P : A → Prop) `{∀ a, Decision (P a)} l :
  Forall (fun a => ¬ P a) l → filter P l = [].
Proof.
  induction 1 as [|x l Hx _ IH]; [done|].
  by rewrite filter_cons, decide_False, IH.
Qed.

Lemma filter_agree {A} (P Q : A → Prop) `{∀ a, Decision (P a)}
    `{∀ a, Decision (Q a)} l :
  Forall (fun a => P a ↔ Q a) l → filter P l = filter Q l.
Proof.
  induction 1 as [|x l Hx _ IH]; [done|].
  rewrite !filter_cons, IH.
  destruct (decide (P x)), (decide (Q x)); tauto.
Qed.

Section Keys.

Context {A : Type} (key : A → string).

(** In a list in the order of its keys the elements of the least key
    come first. *)
Lemma filter_key_prefix (k : string) (l : list A) :
  StronglySorted (fun a b => String.le (key a) (key b)) l →
  Forall (fun a => String.le k (key a)) l →
  filter (fun a => key a = k) l ++ filter (fun a => key a ≠ k) l = l.
Proof.
  induction 1 as [|x l _ IH Hx]; intros Hall; [done|].
  apply Forall_cons in Hall as [Hkx Hall].
  rewrite !filter_cons. destruct (decide (key x = k)) as [Heq|Hne].
  - rewrite decide_False by (by intros ?). cbn [app]. f_equal. by apply IH.
  - rewrite decide_True by done.
    assert (Forall (fun a => key a ≠ k) l) as Hrest.
    { rewrite Forall_forall in Hx. apply Forall_forall. intros a Hin Heq.
      apply Hne. apply (anti_symm String.le); [|done].
      rewrite <- Heq. by apply Hx. }
    by rewrite filter_none, filter_all.
Qed.

Lemma filter_key_other (k k' : string) (l : list A) :
  k' ≠ k →
  filter (fun a => key a = k') (filter (fun a => key a ≠ k) l)
  = filter (fun a => key a = k') l.
Proof.
  intros Hne. induction l as [|x l IH]; [done|].
  rewrite !filter_cons. destruct (decide (key x ≠ k)) as [Hx|Hx].
  - by rewrite filter_cons, IH.
  - rewrite IH, decide_False; [done|].
    intros Heq. apply Hx. congruence.
Qed.

(** Gathering the elements key by key, in the order of the keys, gives
    back a list that is in the order of its keys. *)
Lemma concat_filter_keys (keys : list string) : ∀ l : list A,
  StronglySorted str_lt keys →
  StronglySorted (fun a b => String.le (key a) (key b)) l →
  Forall (fun a => key a ∈ keys) l →
  concat ((fun k => filter (fun a => key a = k) l) <$> keys) = l.
Proof.
  induction keys as [|k keys IH]; intros l Hkeys Hl Hin.
  - destruct l as [|a l]; [done|].
    apply Forall_cons in Hin as [Hin _]. by apply elem_of_nil in Hin.
  - apply StronglySorted_inv in Hkeys as [Hkeys Hk].
    rewrite fmap_cons. cbn [concat].
    etrans; [|apply (filter_key_prefix k l Hl)].
    + f_equal.
      rewrite <- (IH (filter (fun a => key a ≠ k) l)); [|done|..].
      * f_equal. apply Forall_fmap_ext_1.
        rewrite Forall_forall in Hk. apply Forall_forall. intros k' Hk'.
        symmetry. apply filter_key_other.
        intros ->. by apply (str_lt_ne k k); [apply Hk|].
      * by apply StronglySorted_filter.
      * apply Forall_forall. intros a [Hne Ha]%list_elem_of_filter.
        rewrite Forall_forall in Hin.
        pose proof (Hin a Ha) as [?|?]%elem_of_cons; done.
    + rewrite Forall_forall in Hin. rewrite Forall_forall in Hk.
      apply Forall_forall. intros a Ha.
      pose proof (Hin a Ha) as [->|Hin']%elem_of_cons; [done|].
      by apply str_lt_le, Hk.
Qed.

End Keys.

Lemma Forall2_impl_elem_of {A B} (P Q : A → B → Prop) l k :
  Forall2 P l k → (∀ a b, a ∈ l → P a b → Q a b) → Forall2 Q l k.
Proof.
  induction 1 as [|a b l k Hab _ IH]; intros Himpl; constructor.
  - apply Himpl; [by left|done].
  - apply IH. intros a' b' Hin. apply Himpl. by right.
Qed.

Lemma comprehension_concat {A B} (f : A → result B) (ls : list (list A))
    (bss : list (list B)) :
  Forall2 (fun l bs => comprehension f l = Ok bs) ls bss →
  comprehension f (concat ls) = Ok (concat bss).
Proof.
  induction 1 as [|l bs ls bss Hl _ IH]; [done|].
  cbn [concat]. by rewrite comprehension_app, Hl, IH.
Qed.

Lemma sorted_items_spec {V} `{Inhabited V} (d : gmap string V) :
  ∃ keys,
    Pdf.sorted_items d = (fun k => (k, d !!! k)) <$> keys ∧
    StronglySorted str_lt keys ∧
    ∀ k, k ∈ keys ↔ is_Some (d !! k).
Proof.
  exists (merge_sort String.le (map_to_list d).*1). split; [done|].
  pose proof (merge_sort_Permutation String.le (map_to_list d).*1) as Hperm.
  split.
  - apply StronglySorted_le_lt.
    + apply (StronglySorted_merge_sort _).
    + rewrite Hperm. apply NoDup_fst_map_to_list.
  - intros k. rewrite Hperm. rewrite list_elem_of_fmap. split.
    + intros ([k' v] & -> & Hin). apply elem_of_map_to_list in Hin.
      by eexists.
    + intros [v Hv]. exists (k, v). split; [done|].
      by apply elem_of_map_to_list.
Qed.

Lemma year_month_of_key day :
  is_Some (Pdf.date_entry day) → year_month_of day = Some (year_month_key day).
Proof. intros [date Hd]. unfold year_month_of, year_month_key. by rewrite Hd. Qed.

Lemma days_of_month_key ym tide_data :
  Forall (fun day => is_Some (Pdf.date_entry day)) tide_data →
  days_of_month ym tide_data
  = filter (fun day => year_month_key day = ym) tide_data.
Proof.
  intros Hall. unfold days_of_month. apply filter_agree.
  eapply Forall_impl; [exact Hall|]. intros day Hd. cbv beta.
  rewrite (year_month_of_key _ Hd). split; [by intros [= ->]|by intros ->].
Qed.

Lemma dated_days tide_data (dates : list string) :
  Pdf.date_entry <$> tide_data = Some <$> dates →
  Forall (fun day => is_Some (Pdf.date_entry day)) tide_data.
Proof.
  revert dates. induction tide_data as [|day l IH]; intros dates Hd; [done|].
  destruct dates as [|date dates]; [done|]. injection Hd as Hday Hl.
  constructor; [by eexists|]. by apply (IH dates).
Qed.

Lemma sorted_year_months tide_data (dates : list string) :
  Pdf.date_entry <$> tide_data = Some <$> dates →
  StronglySorted String.le dates →
  StronglySorted (fun a b => String.le (year_month_key a) (year_month_key b))
                 tide_data.
Proof.
  revert dates. induction tide_data as [|day l IH]; intros dates Hd Hsorted;
    [constructor|].
  destruct dates as [|date dates]; [done|]. injection Hd as Hday Hl.
  apply StronglySorted_inv in Hsorted as [Hsorted Hdate].
  constructor; [by apply (IH dates)|].
  clear IH Hsorted. revert dates Hl Hdate.
  induction l as [|day' l IH]; intros dates Hl Hdate; [constructor|].
  destruct dates as [|date' dates]; [done|]. injection Hl as Hday' Hl.
  apply Forall_cons in Hdate as [Hle Hdate].
  constructor; [|by apply (IH dates)].
  unfold year_month_key. rewrite Hday, Hday'. simpl. by apply slice_to_le.
Qed.

(** The groups of [group_by_month], in the order [generate_pdf] takes
    them, are the list again when its days are in the order of their
    dates. *)
Lemma generate_pdf_rows format_1f tide_data location elements
    (dates : list string) :
  Pdf.generate_pdf format_1f tide_data location = Ok elements →
  Pdf.date_entry <$> tide_data = Some <$> dates →
  StronglySorted String.le dates →
  comprehension (day_row format_1f) tide_data
  = Ok (concat (drop 1 <$> tables elements)).
Proof.
  intros Hrun Hdates Hsorted.
  apply generate_pdf_spec in Hrun as (months & Hgroups & Hall & _).
  destruct (sorted_items_spec months) as (keys & Hitems & Hkeys & Hin).
  pose proof (dated_days _ _ Hdates) as Hdated.
  rewrite Hitems in Hall. apply Forall2_fmap_l in Hall.
  assert (Forall2 (fun l rows => comprehension (day_row format_1f) l = Ok rows)
            ((fun k => filter (fun day => year_month_key day = k) tide_data)
               <$> keys)
            (drop 1 <$> tables elements)) as Hrows.
  { apply Forall2_fmap. eapply Forall2_impl_elem_of; [exact Hall|].
    intros k table_data Hk Htable. simpl in Htable.
    apply Hin in Hk as [g Hg].
    rewrite (lookup_total_correct _ _ _ Hg) in Htable.
    rewrite (group_by_month_lookup _ _ k Hgroups) in Hg.
    assert (g = days_of_month k tide_data) as ->
      by (destruct (days_of_month k tide_data); [done|by injection Hg]).
    rewrite create_month_table_rows, days_of_month_key in Htable by done.
    destruct (comprehension _ _) as [rows|]; [|done].
    by injection Htable as <-. }
  apply comprehension_concat in Hrows.
  rewrite concat_filter_keys in Hrows; [done..| |].
  - by apply sorted_year_months with dates.
  - apply Forall_forall. intros day Hday. apply Hin.
    rewrite (group_by_month_lookup _ _ _ Hgroups).
    rewrite Forall_forall in Hdated.
    assert (day ∈ days_of_month (year_month_key day) tide_data) as Hmem.
    { apply list_elem_of_filter. split; [|done].
      apply year_month_of_key. by apply Hdated. }
    destruct (days_of_month _ _); [by apply elem_of_nil in Hmem|by eexists].
Qed.

(** X21.  When the days of the file are in ascending order of date, the rows of
    the tables of the document, read table after table, are the rows of
    the days in the order of the file: every day is shown once, and
    months and days follow each other in the order of the dates. *)
Theorem generate_pdf_rows_in_order (format_1f : R → string)
    (tide_data : list Pdf.TideDay) (location : string)
    (elements : list Pdf.flowable) (dates : list string) :
  Pdf.generate_pdf format_1f tide_data location = Ok elements →
  Pdf.date_entry <$> tide_data = Some <$> dates →
  StronglySorted String.le dates →
  comprehension (day_row format_1f) tide_data
  = Ok (concat (drop 1 <$> tables elements)) ∧
  length (concat (drop 1 <$> tables elements)) = length tide_data.
Proof.
  intros Hrun Hdates Hsorted.
  pose proof (generate_pdf_rows _ _ _ _ _ Hrun Hdates Hsorted) as Hrows.
  split; [exact Hrows|]. by apply comprehension_length in Hrows.
Qed.

(** *** From the converter to the document *)









(** *** Sample days *)

Lemma group_by_month_groups_witness :
  ∃ months,
    Pdf.group_by_month new_year_days = Ok months ∧
    ∀ year_month group,
      months !! year_month = Some group ↔
      group ≠ [] ∧ group = days_of_month year_month new_year_days.
Proof.
  destruct (Pdf.group_by_month new_year_days) as [months|e] eqn:Hrun;
    [|vm_compute in Hrun; discriminate].
  exists months. split; [reflexivity|].
  exact (group_by_month_groups new_year_days months Hrun).
Defined.

Lemma create_month_table_grid_witness :
  ∃ data,
    Pdf.create_month_table sample_format new_year_days = Ok data ∧
    head data = Some table_header ∧
    length data = S (length new_year_days) ∧
    Forall (fun row => length row = 25%nat) data ∧
    ∀ (i : nat) day_data, new_year_days !! i = Some day_data →
      ∃ row, data !! S i = Some row ∧ day_row sample_format day_data = Ok row.
Proof.
  destruct (Pdf.create_month_table sample_format new_year_days) as [data|e]
    eqn:Hrun; [|vm_compute in Hrun; discriminate].
  exists data. split; [reflexivity|].
  exact (create_month_table_grid sample_format new_year_days data Hrun).
Defined.

Lemma create_month_table_of_output_witness :
  Pdf.create_month_table sample_format
    (load_day <$> [ {| Date := date_string 739586; hours := ∅ |} ])
  = Ok (table_header
        :: zip_with (record_row sample_format) [739586]
             [ {| Date := date_string 739586; hours := ∅ |} ]).
Proof.
  apply (create_month_table_of_output sample_format [739586]
           [ {| Date := date_string 739586; hours := ∅ |} ]).
  constructor; [|constructor]. split; [lia|reflexivity].
Defined.

Lemma main_page_count_witness :
  ∃ elements months,
    Pdf.main sample_format new_year_days "TANJONG PAGAR" = Ok (elements, months) ∧
    length (tables elements) = months ∧
    page_breaks elements = (months - 1)%nat.
Proof.
  destruct (Pdf.main sample_format new_year_days "TANJONG PAGAR")
    as [[elements months]|e] eqn:Hrun; [|vm_compute in Hrun; discriminate].
  exists elements, months. split; [reflexivity|].
  exact (main_page_count sample_format new_year_days "TANJONG PAGAR"
           elements months Hrun).
Defined.

Lemma generate_pdf_rows_in_order_witness :
  ∃ elements,
    Pdf.generate_pdf sample_format new_year_days "TANJONG PAGAR" = Ok elements ∧
    comprehension (day_row sample_format) new_year_days
    = Ok (concat (drop 1 <$> tables elements)) ∧
    length (concat (drop 1 <$> tables elements)) = length new_year_days.
Proof.
  destruct (Pdf.generate_pdf sample_format new_year_days "TANJONG PAGAR")
    as [elements|e] eqn:Hrun; [|vm_compute in Hrun; discriminate].
  exists elements. split; [reflexivity|].
  apply (generate_pdf_rows_in_order sample_format new_year_days "TANJONG PAGAR"
           elements ["2025-12-31"; "2026-01-01"] Hrun); [reflexivity|].
  repeat constructor.
Defined.
